(** * django-utils: mixins and manager helpers of [utils/models.py]

    A shallow embedding of the Python module [utils/models.py] and the
    properties its specification states about it.

    The module is a set of thin wrappers around the Django ORM.  The
    embedding therefore has three layers:

    - [Py]: the fragment of Python the module relies on: values,
      exception classes and their hierarchy, [try]/[except], dictionaries
      in insertion order, truthiness, calls with an arity check;
    - the host interfaces ([Builtins], [ORM], [ManagerHost], [ModelHost]):
      the Django and built-in operations the module delegates to, left
      abstract so that every statement holds for whatever the host does;
    - the module's own classes, method by method, in source order. *)

From Stdlib Require Import ZArith Ascii String List Bool Lia.
From stdpp Require Import base option list strings pretty gmap.

Local Open Scope string_scope.
Local Open Scope Z_scope.

Set Warnings "-register-all".

(** ** Python values, exceptions and dictionaries *)

Module Py.

(** Values that flow through the module: [None], integers, strings and
    instances (a class name and the instance attributes). *)
Inductive value : Type :=
| VNone
| VInt (z : Z)
| VStr (s : string)
| VObj (cls : string) (attrs : list (string * value)).

#[global] Instance value_eq_dec : EqDecision value.
Proof.
  refine (fix go (a b : value) {struct a} : Decision (a = b) :=
    match a, b with
    | VNone, VNone => left eq_refl
    | VInt x, VInt y => cast_if (decide (x = y))
    | VStr x, VStr y => cast_if (decide (x = y))
    | VObj c1 l1, VObj c2 l2 =>
        cast_if_and (decide (c1 = c2))
          ((fix go_list (l1 l2 : list (string * value)) {struct l1}
              : Decision (l1 = l2) :=
              match l1, l2 with
              | [], [] => left eq_refl
              | (k1, v1) :: t1, (k2, v2) :: t2 =>
                  cast_if_and3 (decide (k1 = k2)) (go v1 v2) (go_list t1 t2)
              | _, _ => right _
              end) l1 l2)
    | _, _ => right _
    end); abstract congruence.
Defined.

(** Exception classes: the built-in ones the module can meet, Django's
    [ObjectDoesNotExist], [MultipleObjectsReturned], [FieldError],
    [DatabaseError] and [IntegrityError], and the two per-model classes
    [Model.DoesNotExist] and [Model.MultipleObjectsReturned]. *)
Inductive exn_class : Type :=
| Exception
| TypeError
| ValueError
| AttributeError
| AssertionError
| LookupError
| KeyError
| NameError
| UnboundLocalError
| FieldError
| ObjectDoesNotExist
| MultipleObjectsReturned
| DatabaseError
| IntegrityError
| DoesNotExist (model : string)
| ModelMultipleObjectsReturned (model : string).

#[global] Instance exn_class_eq_dec : EqDecision exn_class.
Proof. solve_decision. Defined.

(** The class itself followed by its base classes, as Django and
    Python define them; the per-model classes are those of models that
    do not inherit from one another. *)
Definition mro (c : exn_class) : list exn_class :=
  match c with
  | Exception => [Exception]
  | KeyError => [KeyError; LookupError; Exception]
  | UnboundLocalError => [UnboundLocalError; NameError; Exception]
  | IntegrityError => [IntegrityError; DatabaseError; Exception]
  | DoesNotExist m => [DoesNotExist m; ObjectDoesNotExist; Exception]
  | ModelMultipleObjectsReturned m =>
      [ModelMultipleObjectsReturned m; MultipleObjectsReturned; Exception]
  | c => [c; Exception]
  end.

Definition issubclass (c d : exn_class) : bool := bool_decide (d ∈ mro c).

Record exn : Type := mk_exn { exn_cls : exn_class; exn_msg : string }.

#[global] Instance exn_eq_dec : EqDecision exn.
Proof. solve_decision. Defined.

(** [isinstance(e, c)], the test of an [except c:] clause. *)
Definition isinstance (e : exn) (c : exn_class) : bool :=
  issubclass (exn_cls e) c.

(** The outcome of evaluating an expression or running a body: a value
    or a raised exception. *)
Inductive result (A : Type) : Type :=
| Ret (a : A)
| Raise (e : exn).
Arguments Ret {A} a.
Arguments Raise {A} e.

#[global] Instance result_ret : MRet result := λ A a, Ret a.
#[global] Instance result_bind : MBind result := λ A B f r,
  match r with
  | Ret a => f a
  | Raise e => Raise e
  end.

#[global] Instance result_fmap : FMap result := λ A B f r,
  match r with
  | Ret a => Ret (f a)
  | Raise e => Raise e
  end.

Definition raise {A} (c : exn_class) (msg : string) : result A :=
  Raise (mk_exn c msg).

(** The first [except] clause whose class the exception is an instance
    of. *)
Fixpoint find_handler {B} (e : exn)
    (handlers : list (exn_class * (exn → result B))) : option (result B) :=
  match handlers with
  | [] => None
  | (c, h) :: rest => if isinstance e c then Some (h e) else find_handler e rest
  end.

(** [try: body / except c1: h1 / ... / else: orelse].  The [else] suite
    runs outside the handlers' protection. *)
Definition try_except {A B} (body : result A)
    (handlers : list (exn_class * (exn → result B)))
    (orelse : A → result B) : result B :=
  match body with
  | Ret a => orelse a
  | Raise e =>
      match find_handler e handlers with
      | Some r => r
      | None => Raise e
      end
  end.

(** Truthiness, as tested by [if x:] and [not x]. *)
Definition truthy (v : value) : bool :=
  match v with
  | VNone => false
  | VInt z => negb (z =? 0)
  | VStr s => negb (String.eqb s "")
  | VObj _ _ => true
  end.

(** [x is not None]. *)
Definition is_not_None (v : value) : bool :=
  match v with
  | VNone => false
  | _ => true
  end.

(** [a != b] on the values primary keys range over. *)
Definition py_ne (a b : value) : bool := bool_decide (a ≠ b).

(** Dictionaries keep insertion order; a key occurs once. *)
Abbreviation dict := (list (string * value)) (only parsing).

Fixpoint dict_get (d : dict) (k : string) : option value :=
  match d with
  | [] => None
  | (k', v) :: rest => if decide (k' = k) then Some v else dict_get rest k
  end.

(** [d[k]], raising [KeyError] on a missing key. *)
Definition dict_getitem (d : dict) (k : string) : result value :=
  match dict_get d k with
  | Some v => Ret v
  | None => raise KeyError k
  end.

(** [d.get(k, default)]. *)
Definition dict_get_default (d : dict) (k : string) (default : value) : value :=
  match dict_get d k with
  | Some v => v
  | None => default
  end.

Definition dict_remove (d : dict) (k : string) : dict :=
  filter (λ kv, kv.1 ≠ k) d.

(** [d.pop(k, default)]: the value and the dictionary left. *)
Definition dict_pop (d : dict) (k : string) (default : value) : value * dict :=
  (dict_get_default d k default, dict_remove d k).

(** [d[k] = v]: an existing key keeps its place. *)
Fixpoint dict_set (d : dict) (k : string) (v : value) : dict :=
  match d with
  | [] => [(k, v)]
  | (k', v') :: rest =>
      if decide (k' = k) then (k, v) :: rest else (k', v') :: dict_set rest k v
  end.

(** [dict(pairs)]: a later pair overrides an earlier one with its key. *)
Definition dict_of_pairs (pairs : list (string * value)) : dict :=
  foldl (λ d kv, dict_set d kv.1 kv.2) [] pairs.

Definition dict_keys (d : dict) : list string := d.*1.

(** [getattr(o, name)] on instance attributes. *)
Definition getattr (o : value) (name : string) : result value :=
  match o with
  | VObj _ attrs =>
      match dict_get attrs name with
      | Some v => Ret v
      | None => raise AttributeError name
      end
  | _ => raise AttributeError name
  end.

(** A callable, as far as positional calls go: the number of its
    parameters without a default ([arity]), the number of further
    positional arguments it takes ([optional]: its parameters with a
    default, or [None] when it has [*args]), and its body, which
    receives the arguments given. *)
Record callable : Type := mk_callable {
  arity : nat;
  optional : option nat;
  body : list value → result value
}.

(** Whether a call with [n] positional arguments binds. *)
Definition accepts (f : callable) (n : nat) : bool :=
  bool_decide (arity f ≤ n)%nat &&
  match optional f with
  | Some k => bool_decide (n ≤ arity f + k)%nat
  | None => true
  end.

(** A call [f(args)]: a number of arguments the parameters cannot take
    is a [TypeError] raised before the body runs. *)
Definition py_call (f : callable) (args : list value) : result value :=
  if accepts f (length args) then body f args
  else raise TypeError "wrong number of arguments".

(** A local variable of a function body: [None] while unbound.  Reading
    an unbound local raises [UnboundLocalError]. *)
Definition local : Type := option value.

Definition read_local (name : string) (x : local) : result value :=
  match x with
  | Some v => Ret v
  | None => raise UnboundLocalError name
  end.

End Py.
Export Py.

(** ** The host: built-ins and the Django ORM

    Everything the module delegates to is an operation of one of the
    interfaces below.  They carry no laws: the statements about the
    module hold for every implementation of them. *)

(** Built-in operations. *)
Class Builtins : Type := {
  (** [template % key], for a string [key] *)
  str_mod : string → string → result string;
  (** [int(x)] *)
  py_int : value → result Z;
  (** [str(x)]: the [__str__] of a model is the user's and may raise *)
  py_str : value → result string
}.

(** What the mixins need of a queryset (or of a manager, which forwards
    to its queryset). *)
Class ORM (QS : Type) : Type := {
  (** [self.model], by name *)
  qs_model : QS → string;
  (** [self.get( **kwargs)] *)
  qs_get : QS → dict → result value;
  (** [self.filter( **kwargs)] *)
  qs_filter : QS → dict → result QS;
  (** [self.exclude( **kwargs)] *)
  qs_exclude : QS → dict → result QS;
  (** [self.all()] *)
  qs_all : QS → QS;
  (** [qs[start:stop]] *)
  qs_getslice : QS → Z → Z → result QS
}.

(** Django's [models.Manager], the parent class of the managers below:
    its state after [__init__()] and its [get_query_set()]. *)
Class ManagerHost (M QS : Type) : Type := {
  Manager_init : M;
  Manager_get_query_set : M → QS
}.

(** The classes of model fields [type(field)] is compared with. *)
Inductive field_type : Type :=
| AutoField
| CharField
| IntegerField
| DateTimeField
| ForeignKey
| OneToOneField.

#[global] Instance field_type_eq_dec : EqDecision field_type.
Proof. solve_decision. Defined.

(** An element of [model._meta.fields]. *)
Record field : Type := mk_field { name : string; ftype : field_type }.

(** Model instances as the host builds, updates and saves them. *)
Class ModelHost (Obj : Type) : Type := {
  (** [self.model._meta.fields] *)
  meta_fields : list field;
  (** [self.model( **fields)] *)
  model_new : dict → result Obj;
  (** [setattr(obj, name, v)] *)
  obj_setattr : Obj → string → value → result Obj;
  (** [obj.save()] *)
  obj_save : Obj → result Obj
}.

(** ** [utils/models.py] *)

(** *** [class QuerySetMixin] *)
Section QuerySetMixin.
Context {QS : Type} `{!ORM QS}.

Definition get_or_none (self : QS) (kwargs : dict) : result value :=
  try_except (qs_get self kwargs)
    [(DoesNotExist (qs_model self), λ _, Ret VNone)]
    (λ found, Ret found).
End QuerySetMixin.

(** *** [class PolyModel]

    [proxy] shares a dictionary between two objects, so instances live in
    a heap here: an object is a class name and, when it has one, a
    reference to its [__dict__]; dictionaries are stored apart and may
    be shared. *)
Module PolyModel.

Abbreviation loc := nat (only parsing).

(** [obj_dict] is [None] for an instance without [__dict__]: one of
    [object], of a built-in type, of a class with [__slots__]. *)
Record object : Type := mk_object {
  obj_class : string;
  obj_dict : option loc
}.

Record heap : Type := mk_heap {
  objects : gmap nat object;
  dicts : gmap nat dict
}.

(** A class, as far as calling it with no argument goes.  [__new__] and
    [__init__] are code of the class: the call returns an object and
    the heap it leaves, or raises. *)
Record class : Type := mk_class {
  cls_name : string;
  cls_call : heap → result (loc * heap)
}.


(** [o.__dict__] *)
Definition get_dict (o : loc) (h : heap) : result loc :=
  match objects h !! o with
  | Some ob =>
      match obj_dict ob with
      | Some d => Ret d
      | None => raise AttributeError "__dict__"
      end
  | None => raise AttributeError "__dict__"
  end.

(** [o.__dict__ = d]: only an instance that has a [__dict__] takes
    another one. *)
Definition set_dict (o : loc) (d : loc) (h : heap) : result heap :=
  match objects h !! o with
  | Some ob =>
      match obj_dict ob with
      | Some _ =>
          Ret {| objects := <[o := mk_object (obj_class ob) (Some d)]> (objects h);
                 dicts := dicts h |}
      | None => raise AttributeError "__dict__"
      end
  | None => raise AttributeError "__dict__"
  end.

Definition proxy (self : loc) (proxy_cls : class) (h : heap)
    : result (loc * heap) :=
  '(proxy_obj, h) ← cls_call proxy_cls h;
  d ← get_dict self h;
  h ← set_dict proxy_obj d h;
  Ret (proxy_obj, h).




End PolyModel.

(** *** [class FilterManager], [class ExcludeManager] *)
Section Managers.
Context {M QS : Type} `{!ORM QS} `{!ManagerHost M QS}.

(** A manager of either class: the state of its parent class and the
    attribute [self.kwargs]. *)
Record manager : Type := mk_manager { parent : M; kwargs : dict }.

Definition FilterManager_init (kwargs : dict) : manager :=
  {| parent := Manager_init; kwargs := kwargs |}.

Definition FilterManager_get_query_set (self : manager) : result QS :=
  qs_filter (Manager_get_query_set (parent self)) (kwargs self).

Definition ExcludeManager_init (kwargs : dict) : manager :=
  {| parent := Manager_init; kwargs := kwargs |}.

Definition ExcludeManager_get_query_set (self : manager) : result QS :=
  qs_exclude (Manager_get_query_set (parent self)) (kwargs self).
End Managers.
Arguments manager : clear implicits.

(** *** [class VerifyUniqueMixin] *)
Section VerifyUniqueMixin.
Context `{!Builtins}.

(** The default of the parameter [query]: [lambda x: None]. *)
Definition default_query : callable :=
  {| arity := 1; optional := Some 0%nat; body := λ _, Ret VNone |}.

(** [raise IntegrityError(template % str(self))]: [str(self)] is
    evaluated first, and what it raises is raised instead.  Both message
    templates end in their only conversion, [%s], so the formatting is a
    concatenation. *)
Definition raise_IntegrityError (message : string) (self : value)
    : result value :=
  s ← py_str self; raise IntegrityError (message +:+ s).

(** [query] is [None] when the caller passes no argument. *)
Definition x_verify_unique (self : value) (query : option callable)
    : result value :=
  let query := default default_query query in
  try_except (py_call query [])
    [ (ObjectDoesNotExist, λ _, Ret VNone);
      (MultipleObjectsReturned, λ _,
         raise_IntegrityError "Invalid state, unique constraint " self) ]
    (λ other,
       if is_not_None other then
         self_pk ← getattr self "pk";
         other_pk ← getattr other "pk";
         if py_ne self_pk other_pk then
           raise_IntegrityError "Unique constraint violated " self
         else Ret VNone
       else Ret VNone).
End VerifyUniqueMixin.

(** *** [class MapFilterMixin] *)

(** What is bound to the parameter [callback]: a function, or any other
    value, which fails when it is called. *)
Inductive callback : Type :=
| CbFun (f : value → result value)
| CbValue (v : value).

Definition call_callback (cb : callback) (x : value) : result value :=
  match cb with
  | CbFun f => f x
  | CbValue _ => raise TypeError "object is not callable"
  end.

Section MapFilterMixin.
Context {QS : Type} `{!Builtins} `{!ORM QS}.

(** The defaults of [template] and [callback]. *)
Definition default_template : string := "%s".
Definition default_callback : callback := CbFun (λ x, Ret x).

(** The generator expression under [dict(...)]: for each item in turn
    the new key, then the new value. *)
Definition map_filter_pairs (template : string) (callback : callback)
    (kwargs : dict) : result (list (string * value)) :=
  mapM (λ kv, key ← str_mod template kv.1;
              val ← call_callback callback kv.2;
              Ret (key, val)) kwargs.

(** The body of [map_filter], its parameters bound. *)
Definition map_filter (self : QS) (template : string) (callback : callback)
    (kwargs : dict) : result QS :=
  pairs ← map_filter_pairs template callback kwargs;
  qs_filter self (dict_of_pairs pairs).

(** The call [self.map_filter(template, **kwargs)]: Python binds the
    keywords named after parameters to those parameters, and refuses a
    second value for one that is already bound. *)
Definition call_map_filter (self : QS) (template : string) (kwargs : dict)
    : result QS :=
  if bool_decide ("self" ∈ dict_keys kwargs ∨ "template" ∈ dict_keys kwargs)
  then raise TypeError "map_filter() got multiple values for argument"
  else
    match dict_get kwargs "callback" with
    | Some v => map_filter self template (CbValue v) (dict_remove kwargs "callback")
    | None => map_filter self template default_callback kwargs
    end.
End MapFilterMixin.

(** *** [class PaginatorMixin] *)
Section PaginatorMixin.
Context {QS : Type} `{!ORM QS}.

(** [limit] and [offset] are [None] when the caller leaves them out. *)
Definition paginate (self : QS) (limit offset : option Z) : result QS :=
  let limit := default 10 limit in
  let offset := default 0 offset in
  qs_getslice (qs_all self) offset (offset + limit).
End PaginatorMixin.

(** *** [class TimestampMixin] *)
Section TimestampMixin.
Context {QS : Type} `{!Builtins} `{!ORM QS}.

Definition before (self : QS) (kwargs : dict) : result QS :=
  call_map_filter self "%s__lt" kwargs.

Definition after (self : QS) (kwargs : dict) : result QS :=
  call_map_filter self "%s__gt" kwargs.

Definition ubefore (self : QS) (kwargs : dict) : result QS :=
  call_map_filter self "%s__lt" kwargs.

Definition uafter (self : QS) (kwargs : dict) : result QS :=
  call_map_filter self "%s__gt" kwargs.
End TimestampMixin.

(** *** [class RequestQuerySet] *)

(** A request: its [GET] parameters. *)
Record http_request : Type := mk_request { GET : dict }.

(** The local variables of [request]. *)
Record request_locals : Type := mk_locals {
  l_offset : local;
  l_limit : local;
  l_ubefore : local;
  l_before : local;
  l_uafter : local;
  l_after : local
}.

Section RequestQuerySet.
Context {QS : Type} `{!Builtins} `{!ORM QS}.

(** Lines 139 to 153: the branch on [req].  A request object is
    truthy, [None] is not. *)
Definition request_read (req : option http_request) : request_locals :=
  match req with
  | Some r =>
      let offset := dict_get_default (GET r) "offset" (VInt 0) in
      let limit := dict_get_default (GET r) "limit" (VInt 10) in
      let ubefore := dict_get_default (GET r) "ubefore" VNone in
      let before :=
        if negb (truthy ubefore)
        then Some (dict_get_default (GET r) "before" VNone) else None in
      let uafter := dict_get_default (GET r) "uafter" VNone in
      let after :=
        if negb (truthy uafter)
        then Some (dict_get_default (GET r) "after" VNone) else None in
      {| l_offset := Some offset; l_limit := Some limit;
         l_ubefore := Some ubefore; l_before := before;
         l_uafter := Some uafter; l_after := after |}
  | None =>
      {| l_offset := Some (VInt 0); l_limit := Some (VInt 10);
         l_ubefore := None; l_before := Some VNone;
         l_uafter := None; l_after := Some VNone |}
  end.

(** [kwargs.pop(key, var)]: the local [var] is read before the call. *)
Definition pop_or_local (kwargs : dict) (key : string) (var : string)
    (x : local) : result (value * dict) :=
  d ← read_local var x; Ret (dict_pop kwargs key d).

Definition request (self : QS) (req : option http_request) (kwargs : dict)
    : result QS :=
  let vars := request_read req in
  (* lines 155 to 164 *)
  '(v_offset, kwargs) ← pop_or_local kwargs "offset" "offset" (l_offset vars);
  '(v_limit, kwargs) ← pop_or_local kwargs "limit" "limit" (l_limit vars);
  '(v_ubefore, kwargs) ← pop_or_local kwargs "ubefore" "ubefore" (l_ubefore vars);
  kwargs ← (if negb (truthy v_ubefore)
            then snd <$> pop_or_local kwargs "ubefore" "before" (l_before vars)
            else Ret kwargs);
  '(v_uafter, kwargs) ← pop_or_local kwargs "uafter" "uafter" (l_uafter vars);
  '(x_after, kwargs) ← (if negb (truthy v_ubefore)
                        then '(a, kwargs) ← pop_or_local kwargs "after" "after"
                                              (l_after vars);
                             Ret (Some a, kwargs)
                        else Ret (l_after vars, kwargs));
  (* line 166 *)
  qs ← qs_filter self kwargs;
  (* lines 169 to 177 *)
  qs ← (if is_not_None v_ubefore then ubefore qs [("timestamp", v_ubefore)]
        else v_before ← read_local "before" (l_before vars);
             if is_not_None v_before then before qs [("pk", v_before)]
             else Ret qs);
  qs ← (if is_not_None v_uafter then uafter qs [("timestamp", v_uafter)]
        else v_after ← read_local "after" x_after;
             if is_not_None v_after then after qs [("pk", v_after)]
             else Ret qs);
  (* lines 180 to 186 *)
  p_offset ← (if is_not_None v_offset then Some <$> py_int v_offset else Ret None);
  p_limit ← (if is_not_None v_limit then Some <$> py_int v_limit else Ret None);
  paginate qs p_limit p_offset.
End RequestQuerySet.

(** *** [class ExternalManager] *)
Section ExternalManager.
Context {Obj : Type} `{!ModelHost Obj}.

(** [(field.name for field in self.model._meta.fields if type(field)
    != ForeignKey)]: the comparison is on the exact class. *)
Definition plain_field_names : list string :=
  name <$> filter (λ f, ftype f ≠ ForeignKey) meta_fields.

(** The same generator with [==]. *)
Definition foreign_key_names : list string :=
  name <$> filter (λ f, ftype f = ForeignKey) meta_fields.

(** Lines 198 to 200. *)
Definition put_fields (data : dict) : dict :=
  dict_of_pairs (filter (λ kv, kv.1 ∈ plain_field_names) data).

(** One turn of the loop of lines 205 to 214. *)
Definition put_foreign_key (data : dict) (obj : Obj) (name : string)
    : result Obj :=
  try_except (v ← dict_getitem data name; obj_setattr obj name v)
    [(KeyError, λ _,
        let name := name +:+ "_id" in
        try_except (v ← dict_getitem data name; obj_setattr obj name v)
          [(KeyError, λ _, Ret obj)]
          (λ obj, Ret obj))]
    (λ obj, Ret obj).

(** A [for] loop whose body updates [obj] or raises. *)
Fixpoint for_each (body : Obj → string → result Obj) (names : list string)
    (obj : Obj) : result Obj :=
  match names with
  | [] => Ret obj
  | n :: rest => obj ← body obj n; for_each body rest obj
  end.

Definition put (data : dict) : result Obj :=
  obj ← model_new (put_fields data);
  obj ← for_each (put_foreign_key data) foreign_key_names obj;
  obj ← obj_save obj;
  Ret obj.
End ExternalManager.

(** ** An in-memory host

    One implementation of the interfaces, small enough to run: tables
    are lists of instances, lookups are [field], [field__lt] and
    [field__gt].  It instantiates the general statements below. *)
Module Mem.

(** [template % key] with the conversions [%s] and [%%].  [used] tells
    whether the argument is consumed.  Other conversions (flags,
    widths, [%r], [%d], ...) are refused by this implementation. *)
Fixpoint format_s (template : string) (arg : string) (used : bool)
    : result string :=
  match template with
  | EmptyString =>
      if used then Ret ""
      else raise TypeError "not all arguments converted during string formatting"
  | String "%"%char (String "s"%char rest) =>
      if used then raise TypeError "not enough arguments for format string"
      else (λ r, arg +:+ r) <$> format_s rest arg true
  | String "%"%char (String "%"%char rest) => String "%"%char <$> format_s rest arg used
  | String "%"%char EmptyString => raise ValueError "incomplete format"
  | String "%"%char (String _ _) => raise ValueError "unsupported format character"
  | String c rest => String c <$> format_s rest arg used
  end.

Definition digit_of (c : ascii) : option Z :=
  let n := Z.of_N (Ascii.N_of_ascii c) in
  if decide (48 ≤ n ≤ 57) then Some (n - 48) else None.

Fixpoint digits (s : string) (acc : Z) : option Z :=
  match s with
  | EmptyString => Some acc
  | String c rest => d ← digit_of c; digits rest (10 * acc + d)
  end.

(** [int(s)] for a decimal numeral with an optional sign. *)
Definition int_of_string (s : string) : option Z :=
  match s with
  | EmptyString => None
  | String "-"%char (String c rest) => Z.opp <$> digits (String c rest) 0
  | String "+"%char (String c rest) => digits (String c rest) 0
  | s => digits s 0
  end.

Definition mem_int (v : value) : result Z :=
  match v with
  | VInt z => Ret z
  | VStr s =>
      match int_of_string s with
      | Some z => Ret z
      | None => raise ValueError "invalid literal for int()"
      end
  | _ => raise TypeError "int() argument must be a string or a number"
  end.

Definition mem_str (v : value) : string :=
  match v with
  | VNone => "None"
  | VInt z => pretty z
  | VStr s => s
  | VObj cls _ => cls +:+ " object"
  end.

#[global] Instance mem_builtins : Builtins := {|
  str_mod template key := format_s template key false;
  py_int := mem_int;
  py_str v := Ret (mem_str v)
|}.

(** A queryset: its model and the rows it yields, in order. *)
Record mem_qs : Type := mk_qs { mq_model : string; mq_rows : list value }.

Inductive lookup_op : Type := Exact | Lt | Gt.

Definition strip_suffix (suffix s : string) : option string :=
  let n := String.length s in
  let m := String.length suffix in
  if decide (m ≤ n)%nat then
    if decide (substring (n - m) m s = suffix)
    then Some (substring 0 (n - m) s) else None
  else None.

Definition parse_lookup (key : string) : string * lookup_op :=
  match strip_suffix "__lt" key with
  | Some f => (f, Lt)
  | None =>
      match strip_suffix "__gt" key with
      | Some f => (f, Gt)
      | None => (key, Exact)
      end
  end.

Definition compare_values (op : lookup_op) (a b : value) : result bool :=
  match op with
  | Exact => Ret (bool_decide (a = b))
  | Lt =>
      match a, b with
      | VInt x, VInt y => Ret (bool_decide (x < y))
      | _, _ => raise TypeError "unorderable types"
      end
  | Gt =>
      match a, b with
      | VInt x, VInt y => Ret (bool_decide (x > y))
      | _, _ => raise TypeError "unorderable types"
      end
  end.

Definition row_satisfies (row : value) (cond : string * value) : result bool :=
  let '(f, op) := parse_lookup cond.1 in
  match getattr row f with
  | Ret a => compare_values op a cond.2
  | Raise _ => raise FieldError ("Cannot resolve keyword " +:+ f)
  end.

Definition row_matches (conds : dict) (row : value) : result bool :=
  forallb id <$> mapM (row_satisfies row) conds.

(** The rows kept when [keep] is compared with the match. *)
Fixpoint select (keep : bool) (conds : dict) (rows : list value)
    : result (list value) :=
  match rows with
  | [] => Ret []
  | r :: rest =>
      b ← row_matches conds r;
      rs ← select keep conds rest;
      Ret (if bool_decide (b = keep) then r :: rs else rs)
  end.

Definition mem_filter (qs : mem_qs) (conds : dict) : result mem_qs :=
  mk_qs (mq_model qs) <$> select true conds (mq_rows qs).

Definition mem_exclude (qs : mem_qs) (conds : dict) : result mem_qs :=
  mk_qs (mq_model qs) <$> select false conds (mq_rows qs).

Definition mem_get (qs : mem_qs) (conds : dict) : result value :=
  rows ← select true conds (mq_rows qs);
  match rows with
  | [] => raise (DoesNotExist (mq_model qs)) "matching query does not exist"
  | [r] => Ret r
  | _ => raise (ModelMultipleObjectsReturned (mq_model qs))
           "get() returned more than one object"
  end.

(** Slicing a queryset: Django refuses negative bounds. *)
Definition mem_getslice (qs : mem_qs) (start stop : Z) : result mem_qs :=
  if decide (start < 0 ∨ stop < 0)
  then raise AssertionError "Negative indexing is not supported."
  else Ret (mk_qs (mq_model qs)
              (take (Z.to_nat (stop - start)) (drop (Z.to_nat start) (mq_rows qs)))).

#[global] Instance mem_orm : ORM mem_qs := {|
  qs_model := mq_model;
  qs_get := mem_get;
  qs_filter := mem_filter;
  qs_exclude := mem_exclude;
  qs_all qs := qs;
  qs_getslice := mem_getslice
|}.

(** A manager over a table: its parent class has no state of its own. *)
Definition mem_manager (table : mem_qs) : ManagerHost unit mem_qs := {|
  Manager_init := ();
  Manager_get_query_set _ := table
|}.

(** An instance under construction: its attributes and whether it was
    saved. *)
Record mem_obj : Type := mk_obj { o_attrs : dict; o_saved : bool }.

Definition mem_model (fields : list field) : ModelHost mem_obj := {|
  meta_fields := fields;
  model_new kw := Ret (mk_obj kw false);
  obj_setattr o n v := Ret (mk_obj (dict_set (o_attrs o) n v) (o_saved o));
  obj_save o := Ret (mk_obj (o_attrs o) true)
|}.

End Mem.


(** ** Sample data for the in-memory host *)
Module Sample.
Import Mem.

Definition post (pk timestamp : Z) : value :=
  VObj "Post" [("pk", VInt pk); ("timestamp", VInt timestamp)].

(** Fifteen posts, primary keys 1 to 15, timestamps 101 to 115. *)
Definition posts : mem_qs :=
  mk_qs "Post" ((λ i, post (Z.of_nat i) (100 + Z.of_nat i)) <$> seq 1 15).



(** A model with two plain fields and two foreign keys. *)
Definition status_fields : list field :=
  [ mk_field "id" AutoField; mk_field "text" CharField;
    mk_field "author" ForeignKey; mk_field "place" ForeignKey ].

Definition status_data : list (string * value) :=
  [ ("text", VStr "hi"); ("retweets", VInt 3);
    ("author_id", VInt 7); ("place", VObj "Place" [("pk", VInt 2)]) ].



End Sample.

(** ** The conditions the specification names *)



(** The evaluation raises an instance of class [c]. *)
Definition raises {A} (r : result A) (c : exn_class) : Prop :=
  ∃ e, r = Raise e ∧ isinstance e c = true.

(** The evaluation ends without an exception. *)
Definition returns_normally {A} (r : result A) : Prop := ∃ a, r = Ret a.



(** [pairs] lists, item by item, the formatted key and the mapped
    value. *)
Definition mapped_by `{!Builtins} (template : string) (f : value → result value)
    (kwargs pairs : list (string * value)) : Prop :=
  Forall2 (λ kv kv', str_mod template kv.1 = Ret kv'.1 ∧ f kv.2 = Ret kv'.2)
    kwargs pairs.




(** [put] in the words of the specification. *)
Section put_as_specified.
Context {Obj : Type} `{!ModelHost Obj}.

(** The key names a model field that is no foreign key. *)
Definition names_plain_field (key : string) : bool :=
  existsb (λ f, bool_decide (name f = key) &&
                negb (bool_decide (ftype f = ForeignKey))) meta_fields.

(** Where a foreign key takes its value from: [data[name]], or
    [data[name + '_id']] when the key [name] is absent, or nowhere.
    The attribute that is set carries the name of the key used. *)
Definition foreign_key_source (data : dict) (name : string)
    : option (string * value) :=
  match dict_get data name with
  | Some v => Some (name, v)
  | None =>
      match dict_get data (name +:+ "_id") with
      | Some v => Some (name +:+ "_id", v)
      | None => None
      end
  end.

Definition set_foreign_key (data : dict) (obj : Obj) (name : string)
    : result Obj :=
  match foreign_key_source data name with
  | Some (attr, v) => obj_setattr obj attr v
  | None => Ret obj
  end.

(** The fields in turn: a foreign key is set from its source, any other
    field is passed over. *)
Fixpoint set_foreign_keys (data : dict) (fields : list field) (obj : Obj)
    : result Obj :=
  match fields with
  | [] => Ret obj
  | f :: rest =>
      match ftype f with
      | ForeignKey =>
          obj ← set_foreign_key data obj (name f);
          set_foreign_keys data rest obj
      | _ => set_foreign_keys data rest obj
      end
  end.

(** The instance is built from the entries of [data] that name plain
    fields, each foreign key is set from its source, and the instance
    is saved and returned. *)
Definition put_as_specified (data : dict) : result Obj :=
  obj ← model_new (filter (λ kv, names_plain_field kv.1) data);
  obj ← set_foreign_keys data meta_fields obj;
  obj_save obj.

(** The keys of [data] that [put] can look at. *)
Definition put_reads (k : string) : Prop :=
  k ∈ plain_field_names ∨ k ∈ foreign_key_names ∨
  k ∈ (λ n, n +:+ "_id") <$> foreign_key_names.
End put_as_specified.

(** C3 as the specification words it, on one host and one dictionary:
    [put] does what [put_as_specified] does. *)
Definition put_meets_specification {Obj : Type} `{!ModelHost Obj}
    (data : dict) : Prop :=
  put data = put_as_specified data.

(** ** The rest of [utils/models.py] *)

(** *** [class QuerySetManager] *)

(** What [QuerySetManager] asks of its host: the classes a queryset can
    be an instance of, the call that builds one, and attribute lookup on
    the queryset. *)
Class QuerySetManagerHost (C QS : Type) : Type := {
  (** the attribute [QuerySet] of [self.model], when the model has one *)
  model_QuerySet : option C;
  (** the class [QuerySet] of this module (line 22) *)
  module_QuerySet : C;
  (** [cls(model=self.model, using=self._db)] *)
  new_query_set : C → QS;
  (** [getattr(qs, attr)] *)
  qs_getattr : QS → string → result value
}.

Section QuerySetManager.
Context {C QS : Type} `{!QuerySetManagerHost C QS}.

(** [getattr(self.model, 'QuerySet', QuerySet)(model=..., using=...)] *)
Definition QuerySetManager_get_query_set : QS :=
  new_query_set (default module_QuerySet model_QuerySet).

(** [__getattr__(self, attr, *args)].  The built-in [getattr] takes at
    most one default after the name. *)
Definition QuerySetManager_getattr (attr : string) (args : list value)
    : result value :=
  if String.prefix "_" attr then raise AttributeError ""
  else
    let qs := QuerySetManager_get_query_set in
    match args with
    | [] => qs_getattr qs attr
    | [d] => try_except (qs_getattr qs attr) [(AttributeError, λ _, Ret d)]
               (λ v, Ret v)
    | _ => raise TypeError "getattr expected at most 3 arguments"
    end.
End QuerySetManager.

(** *** [TimestampMixin.timestamp_parser], [TimestampMixin._to_timestamp] *)

(** The names the module binds at its top level: its imports and its
    classes. *)
Definition module_globals : list string :=
  [ "m"; "QuerySetMixin"; "Manager"; "query"; "QuerySet"; "QuerySetManager";
    "QuerySetModel"; "PolyModel"; "FilterManager"; "ExcludeManager";
    "MultipleObjectsReturned"; "IntegrityError"; "ObjectDoesNotExist";
    "VerifyUniqueMixin"; "MapFilterMixin"; "PaginatorMixin"; "TimestampMixin";
    "RequestQuerySet"; "ExternalManager"; "ExternalModel"; "CustomUser" ].

(** Reading a name that is not local to the function: a name the module
    does not bind (and that is no built-in) raises [NameError]. *)
Definition load_global (name : string) : result unit :=
  if decide (name ∈ module_globals) then Ret ()
  else raise NameError name.

(** What the timestamp methods ask of their host. *)
Class TimestampHost (QS : Type) : Type := {
  (** [datetime.strptime(obj, format)] *)
  strptime : value → string → result value;
  (** [self.model.objects], the default manager of the model *)
  model_objects : QS → QS
}.

(** [isinstance(obj, datetime)]: an instance of the class [datetime]. *)
Definition is_datetime (obj : value) : bool :=
  match obj with
  | VObj cls _ => bool_decide (cls = "datetime")
  | _ => false
  end.

Section to_timestamp.
Context {QS : Type} `{!ORM QS} `{!TimestampHost QS}.

(** The method as the module defines it; subclasses override it.  The
    name [datetime] is looked up among the globals of the module: the
    only import of it is local to [_to_timestamp]. *)
Definition timestamp_parser (obj : value) : result value :=
  _ ← load_global "datetime"; strptime obj "format".

(** [parser] is the method [self.timestamp_parser] resolves to. *)
Definition _to_timestamp (parser : value → result value) (self : QS)
    (obj : value) : result value :=
  if is_datetime obj then Ret obj
  else
    parsed ← try_except (parser obj) [(ValueError, λ _, Ret None)]
               (λ t, Ret (Some t));
    match parsed with
    | Some t => Ret t
    | None =>
        try_except (found ← qs_get (model_objects self) [("pk", obj)];
                    getattr found "timestamp")
          [ (DoesNotExist (qs_model self), λ _, Ret obj);
            (TypeError, λ _, Ret obj) ]
          (λ t, Ret t)
    end.
End to_timestamp.

(** *** [class CustomUser] *)
Section CustomUser.
Context `{!Builtins}.

Definition get_full_name (self : value) : result string := py_str self.

Definition get_short_name (self : value) : result string := get_full_name self.
End CustomUser.

(** ** More sample data *)
Module MoreSamples.
Import Mem.

(** A host whose [get] is written by hand and raises the generic
    class. *)
Definition generic_orm : ORM mem_qs := {|
  qs_model := mq_model;
  qs_get _ _ := raise ObjectDoesNotExist "no such object";
  qs_filter := mem_filter;
  qs_exclude := mem_exclude;
  qs_all qs := qs;
  qs_getslice := mem_getslice
|}.

(** Timestamps are read from the table the queryset was built on; no
    string parses as a date. *)
Definition mem_timestamps : TimestampHost mem_qs := {|
  strptime _ _ := raise ValueError "time data does not match format";
  model_objects _ := Sample.posts
|}.

(** A host on which assigning the related object raises [KeyError] (the
    descriptor misses a cache entry), the model being that of
    [Sample.status_fields]. *)
Definition touchy_model : ModelHost mem_obj := {|
  meta_fields := Sample.status_fields;
  model_new kw := Ret (mk_obj kw false);
  obj_setattr o n v :=
    if decide (n = "author") then raise KeyError "author"
    else Ret (mk_obj (dict_set (o_attrs o) n v) (o_saved o));
  obj_save o := Ret (mk_obj (o_attrs o) true)
|}.

(** Data that holds a foreign key both ways. *)
Definition both_keys : list (string * value) :=
  [ ("author", VObj "User" [("pk", VInt 1)]); ("author_id", VInt 7) ].

(** A parser that accepts nothing. *)
Definition no_parse (obj : value) : result value :=
  raise ValueError "not a timestamp".

(** A query that needs an argument. *)
Definition by_pk : callable :=
  {| arity := 1; optional := Some 0%nat;
     body := λ args, mem_get Sample.posts [("pk", default VNone (head args))] |}.

(** A query whose only parameter has a default: [lambda pk=3: ...]. *)
Definition by_default_pk : callable :=
  {| arity := 0; optional := Some 1%nat;
     body := λ args, mem_get Sample.posts [("pk", default (VInt 3) (head args))] |}.

(** A query that counts instead of fetching. *)
Definition count_posts : callable :=
  {| arity := 0; optional := Some 0%nat; body := λ _, Ret (VInt 15) |}.

(** A query that fails for a reason of its own. *)
Definition bad_lookup : callable :=
  {| arity := 0; optional := Some 0%nat;
     body := λ _, raise FieldError "Cannot resolve keyword" |}.

(** A queryset host whose model brings its own queryset class. *)
Definition custom_manager : QuerySetManagerHost string (list (string * value)) := {|
  model_QuerySet := Some "PostQuerySet";
  module_QuerySet := "QuerySet";
  new_query_set cls := [("__class__", VStr cls); ("recent", VStr "bound method")];
  qs_getattr qs attr := getattr (VObj "queryset" qs) attr
|}.
End MoreSamples.

(** ** Conditions of the further properties *)

(** [int(v)] unless [v] is [None] (lines 181 to 184). *)
Definition paging_arg `{!Builtins} (v : value) : result (option Z) :=
  if is_not_None v then Some <$> py_int v else Ret None.

(** * Properties *)

(** ** Outcomes *)

Lemma raises_Raise {A} (e : exn) (c : exn_class) :
  raises (@Raise A e) c ↔ isinstance e c = true.
Proof.
  split.
  - intros (e' & [= <-] & H). exact H.
  - intros H. exists e. auto.
Qed.

Lemma raises_Ret {A} (a : A) (c : exn_class) : ¬ raises (Ret a) c.
Proof. intros (e & H & _). discriminate H. Qed.

Lemma isinstance_own_class (e : exn) : isinstance e (exn_cls e) = true.
Proof.
  unfold isinstance, issubclass. apply bool_decide_eq_true.
  destruct (exn_cls e); simpl; left.
Qed.

(** The two families of ORM exceptions are disjoint, and neither
    contains [IntegrityError] or [TypeError]. *)
Lemma isinstance_multiple_not_missing (e : exn) :
  isinstance e MultipleObjectsReturned = true →
  isinstance e ObjectDoesNotExist = false.
Proof.
  unfold isinstance, issubclass. destruct (exn_cls e); vm_compute; congruence.
Qed.

Lemma isinstance_multiple_not_model_missing (e : exn) (m : string) :
  isinstance e MultipleObjectsReturned = true →
  isinstance e (DoesNotExist m) = false.
Proof.
  unfold isinstance, issubclass. intros H. apply bool_decide_eq_false.
  destruct (exn_cls e); vm_compute in H; try discriminate H; simpl; intros Hin;
    repeat (apply elem_of_cons in Hin as [Hin|Hin]; [discriminate Hin|]);
    by apply elem_of_nil in Hin.
Qed.

Lemma isinstance_integrity_not_orm (e : exn) :
  isinstance e IntegrityError = true →
  isinstance e ObjectDoesNotExist = false ∧
  isinstance e MultipleObjectsReturned = false.
Proof.
  unfold isinstance, issubclass. destruct (exn_cls e); vm_compute; intuition congruence.
Qed.

Lemma isinstance_orm_not_integrity (e : exn) :
  isinstance e ObjectDoesNotExist = true ∨
  isinstance e MultipleObjectsReturned = true →
  isinstance e IntegrityError = false.
Proof.
  unfold isinstance, issubclass. destruct (exn_cls e); vm_compute; intuition congruence.
Qed.

(** ** Dictionaries *)

Lemma dict_get_set_eq (d : dict) (k : string) (v : value) :
  dict_get (dict_set d k v) k = Some v.
Proof.
  induction d as [|[k' v'] d IH]; simpl.
  - by rewrite decide_True.
  - destruct (decide (k' = k)) as [->|Hne]; simpl.
    + by rewrite decide_True.
    + by rewrite decide_False.
Qed.

Lemma dict_get_set_ne (d : dict) (k k' : string) (v : value) :
  k ≠ k' → dict_get (dict_set d k v) k' = dict_get d k'.
Proof.
  intros Hne. induction d as [|[k0 v0] d IH]; simpl.
  - by rewrite decide_False.
  - destruct (decide (k0 = k)) as [->|Hne0]; simpl.
    + by rewrite !decide_False.
    + by rewrite IH.
Qed.

Lemma dict_get_None (d : dict) (k : string) :
  dict_get d k = None ↔ k ∉ dict_keys d.
Proof.
  unfold dict_keys. induction d as [|[k' v'] d IH]; simpl.
  - split; [intros _; apply not_elem_of_nil | done].
  - rewrite not_elem_of_cons. destruct (decide (k' = k)) as [->|Hne].
    + split; [done | intros [? _]; done].
    + rewrite IH. split; [intros ?; split; [congruence | done] | intros [_ ?]; done].
Qed.

Lemma dict_get_remove_eq (d : dict) (k : string) :
  dict_get (dict_remove d k) k = None.
Proof.
  unfold dict_remove. induction d as [|[k' v'] d IH]; [done|].
  rewrite filter_cons. case_decide as Hk; simpl in *; [|exact IH].
  by rewrite decide_False.
Qed.

Lemma dict_get_remove_ne (d : dict) (k k' : string) :
  k ≠ k' → dict_get (dict_remove d k) k' = dict_get d k'.
Proof.
  intros Hne. unfold dict_remove. induction d as [|[k0 v0] d IH]; [done|].
  rewrite filter_cons. case_decide as Hk; simpl in *.
  - by rewrite IH.
  - subst k0. by rewrite decide_False.
Qed.

(** Setting a key that is absent appends the entry. *)
Lemma dict_set_fresh (d : dict) (k : string) (v : value) :
  k ∉ dict_keys d → dict_set d k v = (d ++ [(k, v)])%list.
Proof.
  unfold dict_keys. induction d as [|[k' v'] d IH]; simpl; [done|].
  rewrite not_elem_of_cons. intros [Hne Hnotin].
  rewrite decide_False by congruence. by rewrite IH.
Qed.

Lemma dict_of_pairs_app_fresh (acc pairs : list (string * value)) :
  NoDup (dict_keys (acc ++ pairs)%list) →
  foldl (λ d kv, dict_set d kv.1 kv.2) acc pairs = (acc ++ pairs)%list.
Proof.
  revert acc. induction pairs as [|[k v] pairs IH]; intros acc Hnd; simpl.
  - by rewrite app_nil_r.
  - rewrite dict_set_fresh.
    + rewrite IH; rewrite <- app_assoc; simpl; done.
    + unfold dict_keys in *. rewrite fmap_app in Hnd. simpl in Hnd.
      apply NoDup_app in Hnd as (_ & Hdisj & _).
      intros Hin. apply (Hdisj k Hin). left.
Qed.

(** On pairs with distinct keys [dict] keeps every pair, in order. *)
Lemma dict_of_pairs_NoDup (pairs : list (string * value)) :
  NoDup (dict_keys pairs) → dict_of_pairs pairs = pairs.
Proof. intros Hnd. unfold dict_of_pairs. by rewrite dict_of_pairs_app_fresh. Qed.

(** In general the last pair with a given key decides its value. *)
Lemma dict_get_of_pairs_acc (acc pairs : list (string * value)) (k : string) :
  dict_get (foldl (λ d kv, dict_set d kv.1 kv.2) acc pairs) k =
  match dict_get (reverse pairs) k with
  | Some v => Some v
  | None => dict_get acc k
  end.
Proof.
  revert acc. induction pairs as [|[k0 v0] pairs IH]; intros acc; simpl; [done|].
  rewrite IH, reverse_cons. clear IH.
  assert (Hsnoc : ∀ l : list (string * value),
    dict_get (l ++ [(k0, v0)])%list k =
    match dict_get l k with
    | Some v => Some v
    | None => if decide (k0 = k) then Some v0 else None
    end).
  { induction l as [|[k1 v1] l IHl]; simpl; [done|].
    destruct (decide (k1 = k)); [done | exact IHl]. }
  rewrite Hsnoc. destruct (dict_get (reverse pairs) k); [done|].
  destruct (decide (k0 = k)) as [->|Hne].
  - apply dict_get_set_eq.
  - by apply dict_get_set_ne.
Qed.

Lemma dict_get_of_pairs (pairs : list (string * value)) (k : string) :
  dict_get (dict_of_pairs pairs) k = dict_get (reverse pairs) k.
Proof.
  unfold dict_of_pairs. rewrite dict_get_of_pairs_acc.
  by destruct (dict_get (reverse pairs) k).
Qed.

(** ** [QuerySetMixin.get_or_none] *)
Section get_or_none_facts.
Context {QS : Type} `{!ORM QS}.

(** C4.  [get_or_none( **kwargs)] returns what [self.get( **kwargs)]
    returns when the lookup succeeds; it returns [None] when [get] raises
    [self.model.DoesNotExist]; every other exception raised by [get]
    reaches the caller unchanged, and [MultipleObjectsReturned] is one of
    those. *)
Theorem get_or_none_spec (self : QS) (kwargs : dict) :
  (∀ found, qs_get self kwargs = Ret found →
     get_or_none self kwargs = Ret found) ∧
  (∀ e, qs_get self kwargs = Raise e →
     isinstance e (DoesNotExist (qs_model self)) = true →
     get_or_none self kwargs = Ret VNone) ∧
  (∀ e, qs_get self kwargs = Raise e →
     isinstance e (DoesNotExist (qs_model self)) = false →
     get_or_none self kwargs = Raise e) ∧
  (∀ e, qs_get self kwargs = Raise e →
     isinstance e MultipleObjectsReturned = true →
     get_or_none self kwargs = Raise e).
Proof.
  unfold get_or_none, try_except.
  repeat split.
  - intros found ->. reflexivity.
  - intros e -> Hinst. simpl. by rewrite Hinst.
  - intros e -> Hinst. simpl. by rewrite Hinst.
  - intros e -> Hinst. simpl.
    by rewrite (isinstance_multiple_not_model_missing _ _ Hinst).
Qed.

End get_or_none_facts.

(** The three outcomes on the sample table: one post found, none, and
    several. *)
Lemma get_or_none_spec_witness :
  get_or_none Sample.posts [("pk", VInt 3)] = Ret (Sample.post 3 103) ∧
  get_or_none Sample.posts [("pk__gt", VInt 30)] = Ret VNone ∧
  raises (get_or_none Sample.posts [("pk__gt", VInt 3)]) MultipleObjectsReturned.
Proof.
  split; [|split].
  - apply (proj1 (get_or_none_spec Sample.posts [("pk", VInt 3)])).
    reflexivity.
  - eapply (proj1 (proj2 (get_or_none_spec Sample.posts [("pk__gt", VInt 30)])));
      reflexivity.
  - eexists. split.
    + eapply (proj2 (proj2 (proj2
        (get_or_none_spec Sample.posts [("pk__gt", VInt 3)])))); reflexivity.
    + reflexivity.
Defined.

(** ** [VerifyUniqueMixin.x_verify_unique] *)
Section x_verify_unique_facts.
Context `{!Builtins}.

(** A callable whose parameters all have defaults takes the call with
    no argument. *)
Lemma accepts_no_argument (f : callable) :
  arity f = 0%nat → accepts f 0 = true.
Proof.
  intros Harity. unfold accepts. rewrite Harity.
  rewrite bool_decide_eq_true_2 by lia.
  destruct (optional f); [|reflexivity].
  rewrite bool_decide_eq_true_2 by lia. reflexivity.
Qed.

(** What the method does with each outcome of [query()]. *)
Lemma x_verify_unique_cases (self : value) (query : callable) :
  arity query = 0%nat →
  x_verify_unique self (Some query) =
  match body query [] with
  | Ret VNone => Ret VNone
  | Ret other =>
      self_pk ← getattr self "pk";
      other_pk ← getattr other "pk";
      if py_ne self_pk other_pk
      then raise_IntegrityError "Unique constraint violated " self
      else Ret VNone
  | Raise e =>
      if isinstance e ObjectDoesNotExist then Ret VNone
      else if isinstance e MultipleObjectsReturned
      then raise_IntegrityError "Invalid state, unique constraint " self
      else Raise e
  end.
Proof.
  intros Harity. unfold x_verify_unique, py_call, try_except. simpl.
  rewrite (accepts_no_argument _ Harity).
  destruct (body query []) as [[| | |]|e]; simpl; try reflexivity.
  destruct (isinstance e ObjectDoesNotExist); [reflexivity|].
  destruct (isinstance e MultipleObjectsReturned); reflexivity.
Qed.

Lemma getattr_raises_AttributeError (o : value) (name : string) (e : exn) :
  getattr o name = Raise e → exn_cls e = AttributeError.
Proof.
  unfold getattr, raise.
  destruct o as [| | |cls attrs]; try (intros [= <-]; reflexivity).
  destruct (dict_get attrs name); [discriminate|]. intros [= <-]. reflexivity.
Qed.





(** C10.  Without a [query] argument the call of the default,
    [lambda x: None], with no argument raises [TypeError]; the exception
    comes from the call itself, is an instance of neither class the
    method handles, and is what the method raises, whatever [self]
    is. *)
Theorem x_verify_unique_default_query_raises (self : value) :
  ∃ e, x_verify_unique self None = Raise e ∧
       exn_cls e = TypeError ∧
       py_call default_query [] = Raise e ∧
       isinstance e ObjectDoesNotExist = false ∧
       isinstance e MultipleObjectsReturned = false.
Proof.
  eexists. repeat split; reflexivity.
Qed.

End x_verify_unique_facts.



(** ** [FilterManager] and [ExcludeManager] *)
Section manager_facts.
Context {M QS : Type} `{!ORM QS} `{!ManagerHost M QS}.

(** C7.  The queryset of [FilterManager( **kwargs)] is the parent
    manager's queryset with [.filter( **kwargs)] applied, that of
    [ExcludeManager( **kwargs)] is the parent's with [.exclude( **kwargs)]
    applied.  Construction stores [kwargs] and leaves the parent's state
    as [Manager.__init__] made it; whatever that state becomes later,
    [get_query_set] is the one delegated call. *)
Theorem managers_delegate (kwargs : dict) :
  FilterManager_get_query_set (FilterManager_init kwargs) =
    qs_filter (Manager_get_query_set Manager_init) kwargs ∧
  ExcludeManager_get_query_set (ExcludeManager_init kwargs) =
    qs_exclude (Manager_get_query_set Manager_init) kwargs ∧
  parent (FilterManager_init kwargs) = Manager_init ∧
  parent (ExcludeManager_init kwargs) = Manager_init ∧
  (∀ p : M, FilterManager_get_query_set (mk_manager p kwargs) =
            qs_filter (Manager_get_query_set p) kwargs) ∧
  (∀ p : M, ExcludeManager_get_query_set (mk_manager p kwargs) =
            qs_exclude (Manager_get_query_set p) kwargs).
Proof. repeat split. Qed.

End manager_facts.

(** On the sample table: the posts after the twelfth, and the others. *)
Example FilterManager_sample :
  @FilterManager_get_query_set _ _ _ (Mem.mem_manager Sample.posts)
    (@FilterManager_init _ _ (Mem.mem_manager Sample.posts) [("pk__gt", VInt 12)]) =
  Ret (Mem.mk_qs "Post" [Sample.post 13 113; Sample.post 14 114; Sample.post 15 115]).
Proof. reflexivity. Qed.

Example ExcludeManager_sample :
  @ExcludeManager_get_query_set _ _ _ (Mem.mem_manager Sample.posts)
    (@ExcludeManager_init _ _ (Mem.mem_manager Sample.posts) [("pk__gt", VInt 2)]) =
  Ret (Mem.mk_qs "Post" [Sample.post 1 101; Sample.post 2 102]).
Proof. reflexivity. Qed.

(** ** [MapFilterMixin.map_filter] *)
Section map_filter_facts.
Context {QS : Type} `{!Builtins} `{!ORM QS}.

Lemma map_filter_pairs_mapped (template : string) (f : value → result value)
    (kwargs pairs : list (string * value)) :
  mapped_by template f kwargs pairs ↔
  map_filter_pairs template (CbFun f) kwargs = Ret pairs.
Proof.
  unfold mapped_by, map_filter_pairs. split.
  - induction 1 as [|[k v] [k' v'] kwargs pairs [Hk Hv] _ IH]; [reflexivity|].
    simpl in *. rewrite Hk. simpl. rewrite Hv. simpl. rewrite IH. reflexivity.
  - revert pairs. induction kwargs as [|[k v] kwargs IH]; intros pairs; simpl.
    + intros [= <-]. constructor.
    + destruct (str_mod template k) as [k'|] eqn:Hk; simpl; [|discriminate].
      destruct (f v) as [v'|] eqn:Hv; simpl; [|discriminate].
      destruct (mapM _ kwargs) as [rest|] eqn:Hrest; simpl; [|discriminate].
      intros [= <-]. constructor; [done|]. by apply IH.
Qed.

(** When a key cannot be formatted or the callback fails, [filter] is
    not called and the exception is the result. *)
Lemma map_filter_raises (self : QS) (template : string) (cb : callback)
    (kwargs : dict) (e : exn) :
  map_filter_pairs template cb kwargs = Raise e →
  map_filter self template cb kwargs = Raise e.
Proof. unfold map_filter. by intros ->. Qed.

(** C5.  With [pairs] the list of [(template % key, callback(value))]
    for the items of [kwargs], [map_filter(template, callback,
    **kwargs)] is [self.filter] applied to [dict(pairs)]: the same
    queryset, and as keyword arguments the dictionary in which a key has
    the value of the last pair that carries it; when the new keys are
    distinct that dictionary is [pairs] itself, entry for entry. *)
Theorem map_filter_spec (self : QS) (template : string)
    (f : value → result value) (kwargs pairs : list (string * value)) :
  mapped_by template f kwargs pairs →
  map_filter self template (CbFun f) kwargs = qs_filter self (dict_of_pairs pairs) ∧
  length pairs = length kwargs ∧
  (∀ k, dict_get (dict_of_pairs pairs) k = dict_get (reverse pairs) k) ∧
  (NoDup (dict_keys pairs) → dict_of_pairs pairs = pairs).
Proof.
  intros Hmap. repeat split.
  - unfold map_filter. apply map_filter_pairs_mapped in Hmap. by rewrite Hmap.
  - symmetry. eapply Forall2_length, Hmap.
  - apply dict_get_of_pairs.
  - apply dict_of_pairs_NoDup.
Qed.

End map_filter_facts.

(** [map_filter('%s__lt', ...)] on two keywords of the sample table. *)
Lemma map_filter_spec_witness :
  map_filter Sample.posts "%s__lt" default_callback
    [("pk", VInt 4); ("timestamp", VInt 110)] =
  qs_filter Sample.posts [("pk__lt", VInt 4); ("timestamp__lt", VInt 110)].
Proof.
  apply (proj1 (map_filter_spec Sample.posts "%s__lt" (λ x, Ret x)
    [("pk", VInt 4); ("timestamp", VInt 110)]
    [("pk__lt", VInt 4); ("timestamp__lt", VInt 110)]
    ltac:(repeat constructor))).
Defined.

(** ** [TimestampMixin] *)
Section timestamp_facts.
Context {QS : Type} `{!Builtins} `{!ORM QS}.

(** C9.  [ubefore] and [before] are the same function, and so are
    [uafter] and [after]: the first two are the call
    [self.map_filter('%s__lt', **kwargs)], the last two the call
    [self.map_filter('%s__gt', **kwargs)]. *)
Theorem ubefore_uafter_are_before_after (self : QS) (kwargs : dict) :
  ubefore self kwargs = before self kwargs ∧
  uafter self kwargs = after self kwargs ∧
  before self kwargs = call_map_filter self "%s__lt" kwargs ∧
  ubefore self kwargs = call_map_filter self "%s__lt" kwargs ∧
  after self kwargs = call_map_filter self "%s__gt" kwargs ∧
  uafter self kwargs = call_map_filter self "%s__gt" kwargs.
Proof. repeat split. Qed.

(** Keywords that are not parameter names reach the body of
    [map_filter] with the default callback. *)
Lemma call_map_filter_plain (self : QS) (template : string) (kwargs : dict) :
  "self" ∉ dict_keys kwargs → "template" ∉ dict_keys kwargs →
  "callback" ∉ dict_keys kwargs →
  call_map_filter self template kwargs =
  map_filter self template default_callback kwargs.
Proof.
  intros Hself Htemplate Hcallback. unfold call_map_filter.
  rewrite bool_decide_eq_false_2 by tauto.
  apply dict_get_None in Hcallback. by rewrite Hcallback.
Qed.

End timestamp_facts.

(** ** [PaginatorMixin.paginate] *)

(** For every host, [paginate] is one slice of [self.all()]. *)
Lemma paginate_delegates {QS : Type} `{!ORM QS} (self : QS)
    (limit offset : option Z) :
  paginate self limit offset =
  qs_getslice (qs_all self) (default 0 offset)
    (default 0 offset + default 10 limit).
Proof. reflexivity. Qed.

(** The in-memory host slices like a list when both bounds are natural
    numbers, and [all()] yields the rows of the queryset. *)
Lemma mem_getslice_rows (qs : Mem.mem_qs) (start stop : Z) :
  0 ≤ start → 0 ≤ stop →
  ∃ page, qs_getslice qs start stop = Ret page ∧
          Mem.mq_rows page =
          take (Z.to_nat (stop - start)) (drop (Z.to_nat start) (Mem.mq_rows qs)).
Proof.
  intros Hstart Hstop. simpl. unfold Mem.mem_getslice.
  rewrite decide_False by lia. by eexists.
Qed.

(** C6, as the code has it.  On every host whose querysets slice like
    lists when both bounds are natural numbers (a Django [QuerySet]
    does), for [offset] and [offset + limit] not negative,
    [paginate(limit, offset)] returns the slice of [self.all()] from
    [offset] up to, not including, [offset + limit], with defaults 10
    and 0: the page holds at most [limit] rows and its row [i] is row
    [offset + i] of the queryset. *)
Theorem paginate_slice {QS : Type} `{!ORM QS} (rows : QS → list value)
    (self : QS) (limit offset : option Z) :
  (∀ qs, rows (qs_all qs) = rows qs) →
  (∀ qs start stop, 0 ≤ start → 0 ≤ stop →
     ∃ page, qs_getslice qs start stop = Ret page ∧
             rows page =
             take (Z.to_nat (stop - start)) (drop (Z.to_nat start) (rows qs))) →
  0 ≤ default 0 offset → 0 ≤ default 0 offset + default 10 limit →
  ∃ page,
    paginate self limit offset = Ret page ∧
    qs_getslice (qs_all self) (default 0 offset)
      (default 0 offset + default 10 limit) = Ret page ∧
    rows page = take (Z.to_nat (default 10 limit))
                  (drop (Z.to_nat (default 0 offset)) (rows self)) ∧
    (length (rows page) ≤ Z.to_nat (default 10%Z limit))%nat ∧
    ∀ i : nat, (i < Z.to_nat (default 10%Z limit))%nat →
      rows page !! i = rows self !! (Z.to_nat (default 0%Z offset) + i)%nat.
Proof.
  intros Hall Hslice Hoffset Hstop. rewrite paginate_delegates.
  set (o := default 0 offset) in *. set (l := default 10 limit) in *.
  destruct (Hslice (qs_all self) o (o + l) Hoffset Hstop) as (page & Hpage & Hrows).
  rewrite Hall in Hrows. replace (o + l - o) with l in Hrows by lia.
  exists page. split_and!; try done.
  - rewrite Hrows, length_take. lia.
  - intros i Hi. rewrite Hrows, lookup_take_lt by exact Hi. apply lookup_drop.
Qed.

(** The default page of the sample table. *)
Lemma paginate_slice_witness :
  ∃ page, paginate Sample.posts None None = Ret page ∧
          Mem.mq_rows page = take 10 (Mem.mq_rows Sample.posts).
Proof.
  destruct (@paginate_slice _ Mem.mem_orm Mem.mq_rows Sample.posts None None
              (λ qs, eq_refl) mem_getslice_rows
              ltac:(simpl; lia) ltac:(simpl; lia))
    as (page & Hpage & _ & Hrows & _).
  exists page. split; [exact Hpage | exact Hrows].
Defined.

(** C6 as the specification words it fails at a negative offset: a
    queryset refuses a negative index, and [paginate] returns no
    slice. *)
Lemma paginate_negative_offset_raises :
  raises (paginate Sample.posts (Some 10) (Some (-1))) AssertionError ∧
  ¬ returns_normally (paginate Sample.posts (Some 10) (Some (-1))).
Proof.
  split.
  - eexists. split; reflexivity.
  - intros [page Hpage]. discriminate Hpage.
Qed.

Example paginate_default_sample :
  Mem.mq_rows <$> paginate Sample.posts None None =
  Ret ((λ i, Sample.post (Z.of_nat i) (100 + Z.of_nat i)) <$> seq 1 10).
Proof. reflexivity. Qed.

Example paginate_end_sample :
  Mem.mq_rows <$> paginate Sample.posts (Some 3) (Some 13) =
  Ret [Sample.post 14 114; Sample.post 15 115].
Proof. reflexivity. Qed.

(** ** [RequestQuerySet.request] *)
Section request_facts.
Context {QS : Type} `{!Builtins} `{!ORM QS}.

(** C2, where the code departs from it.  Without a request the locals
    [ubefore] and [uafter] are never bound, and line 158 reads [ubefore]:
    the call raises [UnboundLocalError], whatever the queryset and the
    keyword arguments, and with no keyword argument in particular. *)
Theorem request_without_req_raises (self : QS) (kwargs : dict) :
  request self None kwargs = raise UnboundLocalError "ubefore" ∧
  request self None [] = raise UnboundLocalError "ubefore".
Proof. split; reflexivity. Qed.

(** With a request whose [GET] names neither bound, and no keyword
    argument, the method is what the specification describes: the
    filtered queryset, paginated. *)
Lemma request_plain (self : QS) (r : http_request) :
  dict_get (GET r) "ubefore" = None → dict_get (GET r) "before" = None →
  dict_get (GET r) "uafter" = None → dict_get (GET r) "after" = None →
  dict_get (GET r) "offset" = None → dict_get (GET r) "limit" = None →
  request self (Some r) [] =
  (qs ← qs_filter self [];
   offset ← py_int (VInt 0);
   limit ← py_int (VInt 10);
   paginate qs (Some limit) (Some offset)).
Proof.
  intros Hub Hb Hua Ha Ho Hl.
  unfold request, request_read, pop_or_local, dict_pop, dict_get_default.
  rewrite Hub, Hb, Hua, Ha, Ho, Hl. cbn.
  destruct (qs_filter self []) as [qs|]; cbn; [|reflexivity].
  destruct (py_int (VInt 0)) as [o|]; cbn; [|reflexivity].
  destruct (py_int (VInt 10)) as [l|]; reflexivity.
Qed.

End request_facts.

(** On the sample table: no request, a plain request, a [before] taken
    from [GET], and a [before] given as keyword, which is handed to
    [filter] as if it were a field. *)
Example request_None_sample :
  request Sample.posts None [] = raise UnboundLocalError "ubefore".
Proof. reflexivity. Qed.

Example request_plain_sample :
  Mem.mq_rows <$> request Sample.posts (Some (mk_request [])) [] =
  Ret ((λ i, Sample.post (Z.of_nat i) (100 + Z.of_nat i)) <$> seq 1 10).
Proof. reflexivity. Qed.

Example request_GET_before_sample :
  Mem.mq_rows <$>
    request Sample.posts (Some (mk_request [("before", VInt 3)])) [] =
  Ret [Sample.post 1 101; Sample.post 2 102].
Proof. reflexivity. Qed.

Example request_kwargs_before_sample :
  request Sample.posts (Some (mk_request [])) [("before", VInt 3)] =
  raise FieldError "Cannot resolve keyword before".
Proof. reflexivity. Qed.

(** ** [PolyModel.proxy] *)
Section proxy_facts.
Import PolyModel.







End proxy_facts.



(** ** [ExternalManager.put] *)
Section put_facts.
Context {Obj : Type} `{!ModelHost Obj}.

Lemma for_each_ext (f g : Obj → string → result Obj) (names : list string)
    (obj : Obj) :
  (∀ o n, n ∈ names → f o n = g o n) →
  for_each f names obj = for_each g names obj.
Proof.
  revert obj. induction names as [|n names IH]; intros obj Hext; [reflexivity|].
  simpl. rewrite (Hext obj n) by left.
  destruct (g obj n) as [obj'|]; simpl; [|reflexivity].
  apply IH. intros o m Hm. apply Hext. by right.
Qed.

(** Filtering a dictionary on its keys. *)
Lemma dict_get_filter_keys (P : string → Prop) `{!∀ k, Decision (P k)}
    (d : list (string * value)) (k : string) :
  dict_get (filter (λ kv, P kv.1) d) k =
  if decide (P k) then dict_get d k else None.
Proof.
  induction d as [|[k' v'] d IH]; [by destruct (decide (P k))|].
  rewrite filter_cons. simpl. destruct (decide (P k')) as [Hk'|Hk']; simpl.
  - destruct (decide (k' = k)) as [->|Hne].
    + by rewrite decide_True.
    + exact IH.
  - rewrite IH. destruct (decide (P k)) as [Hk|Hk]; [|reflexivity].
    rewrite decide_False; [reflexivity | congruence].
Qed.

Lemma NoDup_keys_filter (P : string * value → Prop) `{!∀ kv, Decision (P kv)}
    (d : list (string * value)) :
  NoDup (dict_keys d) → NoDup (dict_keys (filter P d)).
Proof.
  unfold dict_keys. intros Hnd. eapply sublist_NoDup; [exact Hnd|].
  apply fmap_sublist, sublist_filter.
Qed.

(** Under the keys of a keyword dictionary, [fields] is [data]
    restricted to the plain field names. *)
Lemma put_fields_filter (data : list (string * value)) :
  NoDup (dict_keys data) →
  put_fields data = filter (λ kv, kv.1 ∈ plain_field_names) data.
Proof.
  intros Hnd. unfold put_fields. apply dict_of_pairs_NoDup.
  by apply NoDup_keys_filter.
Qed.

(** One turn of the loop, when [setattr] raises no [KeyError] of its
    own. *)
Lemma put_foreign_key_as_specified (data : list (string * value)) (obj : Obj)
    (name : string) :
  (∀ o n v e, obj_setattr o n v = Raise e → isinstance e KeyError = false) →
  put_foreign_key data obj name = set_foreign_key data obj name.
Proof.
  intros Hset.
  assert (Htry : ∀ n v (handler : exn → result Obj),
    try_except (obj_setattr obj n v) [(KeyError, handler)] (λ o, Ret o) =
    obj_setattr obj n v).
  { intros n v handler. unfold try_except.
    destruct (obj_setattr obj n v) as [o|e] eqn:Hs; [reflexivity|]. simpl.
    by rewrite (Hset _ _ _ _ Hs). }
  unfold put_foreign_key, set_foreign_key, foreign_key_source, dict_getitem.
  destruct (dict_get data name) as [v|]; simpl.
  - apply Htry.
  - destruct (dict_get data (name +:+ "_id")) as [v|]; simpl.
    + apply Htry.
    + reflexivity.
Qed.

Lemma put_fields_remove (data : list (string * value)) (k : string) :
  k ∉ plain_field_names →
  put_fields (dict_remove data k) = put_fields data.
Proof.
  intros Hk. unfold put_fields, dict_remove. f_equal.
  apply list_filter_filter_l. intros [k' v'] Hin Heq. simpl in *. by subst.
Qed.

Lemma put_foreign_key_remove (data : list (string * value)) (k : string)
    (obj : Obj) (name : string) :
  k ≠ name → k ≠ name +:+ "_id" →
  put_foreign_key (dict_remove data k) obj name = put_foreign_key data obj name.
Proof.
  intros Hname Hid. unfold put_foreign_key, dict_getitem.
  by rewrite !dict_get_remove_ne by done.
Qed.

(** The specification's test on a key is the code's membership in the
    generator of plain field names. *)
Lemma names_plain_field_spec (k : string) :
  names_plain_field k = true ↔ k ∈ plain_field_names.
Proof.
  unfold names_plain_field, plain_field_names.
  rewrite existsb_exists, list_elem_of_fmap. split.
  - intros (f & Hin & Hf). apply andb_prop in Hf as [Hname Hty].
    apply bool_decide_eq_true in Hname. apply negb_true_iff in Hty.
    apply bool_decide_eq_false in Hty.
    exists f. split; [done|]. apply list_elem_of_filter. split; [done|].
    by apply list_elem_of_In.
  - intros (f & -> & Hin). apply list_elem_of_filter in Hin as [Hty Hin].
    exists f. split; [by apply list_elem_of_In|].
    rewrite bool_decide_eq_true_2 by done. simpl.
    apply negb_true_iff. by apply bool_decide_eq_false.
Qed.

Lemma plain_entries_filter (data : list (string * value)) :
  filter (λ kv, names_plain_field kv.1) data =
  filter (λ kv, kv.1 ∈ plain_field_names) data.
Proof.
  apply list_filter_iff. intros [k v]. simpl.
  rewrite <- names_plain_field_spec. apply Is_true_true.
Qed.

(** The loop over the generator of foreign key names is the pass over
    the fields that stops at the foreign keys. *)
Lemma set_foreign_keys_for_each (data : list (string * value)) (obj : Obj) :
  set_foreign_keys data meta_fields obj =
  for_each (set_foreign_key data) foreign_key_names obj.
Proof.
  unfold foreign_key_names. revert obj.
  induction meta_fields as [|f fields IH]; intros obj; [reflexivity|].
  rewrite filter_cons. simpl.
  destruct (ftype f) eqn:Hty;
    try (rewrite decide_False by discriminate; apply IH).
  rewrite decide_True by reflexivity. simpl.
  destruct (set_foreign_key data obj (name f)); simpl; [apply IH | reflexivity].
Qed.

(** C3, as the code has it.  For a keyword dictionary [data] (its keys
    distinct), on a host
    whose [setattr] raises no [KeyError], [put( **data)] does what the
    specification says: it builds the instance from exactly the entries
    of [data] that name plain fields, sets each foreign key from
    [data[name]], or from [data[name + '_id']] when [name] is absent, or
    not at all, saves the instance and returns it.  A key that is no
    field name, and no foreign key name followed by [_id], is ignored;
    what [put] returns is what [save] left. *)
Theorem put_spec (data : list (string * value)) :
  NoDup (dict_keys data) →
  (∀ o n v e, obj_setattr o n v = Raise e → isinstance e KeyError = false) →
  put data = put_as_specified data ∧
  (∀ k, dict_get (put_fields data) k =
        if decide (k ∈ plain_field_names) then dict_get data k else None) ∧
  (∀ k, ¬ put_reads k → put (dict_remove data k) = put data) ∧
  (∀ obj, put data = Ret obj → ∃ built, obj_save built = Ret obj).
Proof.
  intros Hnd Hset. split_and!.
  - unfold put, put_as_specified. rewrite (put_fields_filter _ Hnd).
    rewrite <- plain_entries_filter.
    destruct (model_new _) as [obj|]; simpl; [|reflexivity].
    rewrite (for_each_ext (put_foreign_key data) (set_foreign_key data))
      by (intros; by apply put_foreign_key_as_specified).
    rewrite <- set_foreign_keys_for_each.
    destruct (set_foreign_keys _ _ _) as [obj'|]; simpl; [|reflexivity].
    by destruct (obj_save obj').
  - intros k. rewrite (put_fields_filter _ Hnd).
    exact (dict_get_filter_keys (λ n, n ∈ plain_field_names) data k).
  - intros k Hk. unfold put_reads in Hk. unfold put.
    rewrite put_fields_remove by tauto.
    destruct (model_new _) as [obj|]; simpl; [|reflexivity].
    rewrite (for_each_ext (put_foreign_key (dict_remove data k))
               (put_foreign_key data)); [reflexivity|].
    intros o n Hn. apply put_foreign_key_remove.
    + intros ->. tauto.
    + intros ->. apply Hk. right. right.
      apply list_elem_of_fmap. exists n. by split.
  - intros obj. unfold put.
    destruct (model_new _) as [o0|]; simpl; [|discriminate].
    destruct (for_each _ _ _) as [o1|]; simpl; [|discriminate].
    destruct (obj_save o1) as [o2|] eqn:Hsave; simpl; [|discriminate].
    intros [= <-]. by exists o1.
Qed.

End put_facts.

(** [put] on the sample model: [text] initialises the instance,
    [author] is set through [author_id], [place] through [place], and
    [retweets], which names no field, is dropped. *)
Lemma put_spec_witness :
  @put _ (Mem.mem_model Sample.status_fields) Sample.status_data =
  Ret (Mem.mk_obj [ ("text", VStr "hi"); ("author_id", VInt 7);
                    ("place", VObj "Place" [("pk", VInt 2)]) ] true).
Proof.
  rewrite (proj1 (@put_spec _ (Mem.mem_model Sample.status_fields)
                    Sample.status_data
                    ltac:(apply (bool_decide_unpack _); vm_compute; exact I)
                    ltac:(intros o n v e; discriminate))).
  reflexivity.
Defined.

(** C3 as the specification words it fails on a host whose [setattr]
    raises [KeyError]: the key [author] is present, yet [put] sets
    [author_id] from [data['author_id']], where the specification has
    the foreign key set from [data['author']]. *)
Lemma put_KeyError_falls_back_to_id :
  NoDup (dict_keys MoreSamples.both_keys) ∧
  dict_get MoreSamples.both_keys "author" = Some (VObj "User" [("pk", VInt 1)]) ∧
  @put _ MoreSamples.touchy_model MoreSamples.both_keys =
    Ret (Mem.mk_obj [("author_id", VInt 7)] true) ∧
  ¬ @put_meets_specification _ MoreSamples.touchy_model MoreSamples.both_keys.
Proof.
  split_and!.
  - apply (bool_decide_unpack _). vm_compute. exact I.
  - reflexivity.
  - reflexivity.
  - unfold put_meets_specification. vm_compute. discriminate.
Qed.

(** * Further properties *)

(** ** Dictionaries, continued *)

Lemma dict_remove_absent (d : list (string * value)) (k : string) :
  k ∉ dict_keys d → dict_remove d k = d.
Proof.
  unfold dict_keys, dict_remove. induction d as [|[k' v'] d IH]; [done|].
  rewrite fmap_cons, not_elem_of_cons. simpl. intros [Hne Hnotin].
  rewrite filter_cons. simpl. rewrite decide_True by congruence.
  by rewrite IH.
Qed.

Lemma dict_keys_remove (d : list (string * value)) (k k' : string) :
  k' ∈ dict_keys (dict_remove d k) ↔ k' ∈ dict_keys d ∧ k' ≠ k.
Proof.
  unfold dict_keys, dict_remove. rewrite !list_elem_of_fmap. split.
  - intros ([k0 v0] & -> & Hin). apply list_elem_of_filter in Hin as [Hne Hin].
    split; [|exact Hne]. by exists (k0, v0).
  - intros [([k0 v0] & -> & Hin) Hne]. exists (k0, v0). split; [done|].
    by apply list_elem_of_filter.
Qed.

Lemma dict_get_default_remove_ne (d : list (string * value)) (k k' : string)
    (x : value) :
  k ≠ k' → dict_get_default (dict_remove d k) k' x = dict_get_default d k' x.
Proof. intros Hne. unfold dict_get_default. by rewrite dict_get_remove_ne. Qed.

Lemma dict_get_default_absent (d : list (string * value)) (k : string)
    (x : value) :
  k ∉ dict_keys d → dict_get_default d k x = x.
Proof.
  intros Hk. apply dict_get_None in Hk. unfold dict_get_default. by rewrite Hk.
Qed.

Lemma dict_get_default_present (d : list (string * value)) (k : string)
    (x y : value) :
  k ∈ dict_keys d → dict_get_default d k x = dict_get_default d k y.
Proof.
  intros Hk. unfold dict_get_default.
  destruct (dict_get d k) eqn:Hget; [reflexivity|].
  by apply dict_get_None in Hget.
Qed.

(** Closes a decidable goal about concrete data by evaluation. *)
Ltac by_evaluation := apply (bool_decide_unpack _); vm_compute; exact I.

(** ** [RequestQuerySet.request] with a request *)
Section request_with_req.
Context {QS : Type} `{!Builtins} `{!ORM QS}.

(** With a request that names neither [ubefore] nor [uafter], and no
    such keyword, [request] is: [filter] with the keywords left after
    [offset], [limit] and [after] are taken out, then the bound
    [before] of [GET] on [pk], then the bound [after] of the keywords or
    else of [GET] on [pk], then the page given by [offset] and [limit],
    keywords before [GET].  A keyword [before] is not taken out: it
    reaches [filter] as a lookup on a field of that name. *)
Theorem request_pk_bounds (self : QS) (r : http_request)
    (kwargs : list (string * value)) :
  dict_get (GET r) "ubefore" = None → dict_get (GET r) "uafter" = None →
  "ubefore" ∉ dict_keys kwargs → "uafter" ∉ dict_keys kwargs →
  request self (Some r) kwargs =
  (qs ← qs_filter self
          (dict_remove (dict_remove (dict_remove kwargs "offset") "limit") "after");
   qs ← (let b := dict_get_default (GET r) "before" VNone in
         if is_not_None b then before qs [("pk", b)] else Ret qs);
   qs ← (let a := dict_get_default kwargs "after"
                    (dict_get_default (GET r) "after" VNone) in
         if is_not_None a then after qs [("pk", a)] else Ret qs);
   offset ← paging_arg (dict_get_default kwargs "offset"
                          (dict_get_default (GET r) "offset" (VInt 0)));
   limit ← paging_arg (dict_get_default kwargs "limit"
                         (dict_get_default (GET r) "limit" (VInt 10)));
   paginate qs limit offset) ∧
  dict_get (dict_remove (dict_remove (dict_remove kwargs "offset") "limit") "after")
    "before" = dict_get kwargs "before".
Proof.
  intros Hub Hua Hkub Hkua. split; [|by rewrite !dict_get_remove_ne].
  set (kw2 := dict_remove (dict_remove kwargs "offset") "limit").
  assert (Hub2 : "ubefore" ∉ dict_keys kw2)
    by (unfold kw2; rewrite !dict_keys_remove; tauto).
  assert (Hua2 : "uafter" ∉ dict_keys kw2)
    by (unfold kw2; rewrite !dict_keys_remove; tauto).
  assert (Hgub : dict_get_default (GET r) "ubefore" VNone = VNone)
    by (unfold dict_get_default; by rewrite Hub).
  assert (Hgua : dict_get_default (GET r) "uafter" VNone = VNone)
    by (unfold dict_get_default; by rewrite Hua).
  unfold request, request_read, pop_or_local, dict_pop, paging_arg.
  rewrite Hgub, Hgua. cbn -[dict_remove dict_get_default before after paginate].
  fold kw2.
  rewrite (dict_get_default_absent kw2 "ubefore") by done.
  rewrite !(dict_remove_absent kw2 "ubefore") by done.
  cbn -[dict_remove dict_get_default before after paginate].
  rewrite (dict_get_default_absent kw2 "uafter") by done.
  rewrite (dict_remove_absent kw2 "uafter") by done.
  cbn -[dict_remove dict_get_default before after paginate].
  unfold kw2. rewrite !dict_get_default_remove_ne by done.
  reflexivity.
Qed.

(** With a truthy [ubefore] in [GET] (and no [uafter], and neither as
    keyword), [request] is: [filter] with the keywords left after
    [offset] and [limit] are taken out, then [ubefore] on [timestamp],
    then the bound [after] of [GET] on [pk], then the page.  [before] is
    not looked at, and a keyword [after] is not taken out: it reaches
    [filter]. *)
Theorem request_ubefore_bound (self : QS) (r : http_request)
    (kwargs : list (string * value)) (u : value) :
  dict_get (GET r) "ubefore" = Some u → truthy u = true →
  dict_get (GET r) "uafter" = None →
  "ubefore" ∉ dict_keys kwargs → "uafter" ∉ dict_keys kwargs →
  request self (Some r) kwargs =
  (qs ← qs_filter self (dict_remove (dict_remove kwargs "offset") "limit");
   qs ← ubefore qs [("timestamp", u)];
   qs ← (let a := dict_get_default (GET r) "after" VNone in
         if is_not_None a then after qs [("pk", a)] else Ret qs);
   offset ← paging_arg (dict_get_default kwargs "offset"
                          (dict_get_default (GET r) "offset" (VInt 0)));
   limit ← paging_arg (dict_get_default kwargs "limit"
                         (dict_get_default (GET r) "limit" (VInt 10)));
   paginate qs limit offset).
Proof.
  intros Hub Hu Hua Hkub Hkua.
  set (kw2 := dict_remove (dict_remove kwargs "offset") "limit").
  assert (Hub2 : "ubefore" ∉ dict_keys kw2)
    by (unfold kw2; rewrite !dict_keys_remove; tauto).
  assert (Hua2 : "uafter" ∉ dict_keys kw2)
    by (unfold kw2; rewrite !dict_keys_remove; tauto).
  assert (Hgub : dict_get_default (GET r) "ubefore" VNone = u)
    by (unfold dict_get_default; by rewrite Hub).
  assert (Hgua : dict_get_default (GET r) "uafter" VNone = VNone)
    by (unfold dict_get_default; by rewrite Hua).
  assert (Hnn : is_not_None u = true) by (by destruct u).
  unfold request, request_read, pop_or_local, dict_pop, paging_arg.
  rewrite Hgub, Hgua, Hu.
  cbn -[dict_remove dict_get_default before after ubefore uafter paginate].
  fold kw2.
  rewrite (dict_get_default_absent kw2 "ubefore") by done.
  rewrite (dict_remove_absent kw2 "ubefore") by done.
  rewrite Hu, Hnn.
  cbn -[dict_remove dict_get_default before after ubefore uafter paginate].
  rewrite (dict_get_default_absent kw2 "uafter") by done.
  rewrite (dict_remove_absent kw2 "uafter") by done.
  cbn -[dict_remove dict_get_default before after ubefore uafter paginate].
  unfold kw2. rewrite !dict_get_default_remove_ne by done.
  reflexivity.
Qed.

(** A truthy [uafter] in [GET] leaves the local [after] unbound, and
    line 164 reads it whenever [ubefore] is falsy: such a request raises
    [UnboundLocalError] before any query is made. *)
Theorem request_uafter_unbound (self : QS) (r : http_request)
    (kwargs : list (string * value)) (ua : value) :
  dict_get (GET r) "uafter" = Some ua → truthy ua = true →
  truthy (dict_get_default kwargs "ubefore"
            (dict_get_default (GET r) "ubefore" VNone)) = false →
  raises (request self (Some r) kwargs) UnboundLocalError.
Proof.
  intros Hua Htrue Hub.
  assert (Hgua : dict_get_default (GET r) "uafter" VNone = ua)
    by (unfold dict_get_default; by rewrite Hua).
  unfold request, request_read, pop_or_local, dict_pop.
  rewrite Hgua, Htrue.
  cbn -[dict_remove dict_get_default before after ubefore uafter paginate].
  rewrite !dict_get_default_remove_ne by done. rewrite Hub.
  destruct (truthy (dict_get_default (GET r) "ubefore" VNone));
    cbn -[dict_remove dict_get_default before after ubefore uafter paginate];
    eexists; split; reflexivity.
Qed.

(** [offset] and [limit] given as keywords win over those of [GET]:
    what [GET] holds under these two names does not matter. *)
Theorem request_keywords_override_GET_paging (self : QS) (r r' : http_request)
    (kwargs : list (string * value)) :
  (∀ k, k ≠ "offset" → k ≠ "limit" →
        dict_get (GET r') k = dict_get (GET r) k) →
  "offset" ∈ dict_keys kwargs → "limit" ∈ dict_keys kwargs →
  request self (Some r') kwargs = request self (Some r) kwargs.
Proof.
  intros Hext Hoffset Hlimit.
  assert (Heq : ∀ k x, k ≠ "offset" → k ≠ "limit" →
            dict_get_default (GET r') k x = dict_get_default (GET r) k x).
  { intros k x Ho Hl. unfold dict_get_default. by rewrite Hext. }
  assert (Hlimit' : "limit" ∈ dict_keys (dict_remove kwargs "offset"))
    by (by apply dict_keys_remove).
  unfold request, request_read, pop_or_local, dict_pop.
  rewrite !(Heq "ubefore"), !(Heq "before"), !(Heq "uafter"), !(Heq "after")
    by done.
  cbn -[dict_remove dict_get_default before after ubefore uafter paginate].
  rewrite (dict_get_default_present kwargs "offset"
             (dict_get_default (GET r') "offset" (VInt 0))
             (dict_get_default (GET r) "offset" (VInt 0))) by done.
  rewrite (dict_get_default_present (dict_remove kwargs "offset") "limit"
             (dict_get_default (GET r') "limit" (VInt 10))
             (dict_get_default (GET r) "limit" (VInt 10))) by done.
  reflexivity.
Qed.

End request_with_req.

Lemma request_pk_bounds_witness :
  Mem.mq_rows <$>
    request Sample.posts
      (Some (mk_request [("before", VInt 9); ("limit", VStr "5")]))
      [("after", VInt 2); ("offset", VInt 1)] =
  Ret [Sample.post 4 104; Sample.post 5 105; Sample.post 6 106;
       Sample.post 7 107; Sample.post 8 108].
Proof.
  rewrite (proj1 (request_pk_bounds Sample.posts
    (mk_request [("before", VInt 9); ("limit", VStr "5")])
    [("after", VInt 2); ("offset", VInt 1)]
    eq_refl eq_refl ltac:(by_evaluation) ltac:(by_evaluation))).
  reflexivity.
Defined.

Lemma request_ubefore_bound_witness :
  Mem.mq_rows <$>
    request Sample.posts
      (Some (mk_request [("ubefore", VInt 104); ("before", VInt 2)])) [] =
  Ret [Sample.post 1 101; Sample.post 2 102; Sample.post 3 103].
Proof.
  rewrite (request_ubefore_bound Sample.posts
    (mk_request [("ubefore", VInt 104); ("before", VInt 2)]) [] (VInt 104)
    eq_refl eq_refl eq_refl ltac:(by_evaluation) ltac:(by_evaluation)).
  reflexivity.
Defined.

Lemma request_uafter_unbound_witness :
  raises (request Sample.posts (Some (mk_request [("uafter", VInt 104)])) [])
    UnboundLocalError.
Proof.
  exact (request_uafter_unbound Sample.posts
           (mk_request [("uafter", VInt 104)]) [] (VInt 104)
           eq_refl eq_refl eq_refl).
Defined.

Lemma request_keywords_override_GET_paging_witness :
  request Sample.posts (Some (mk_request [("offset", VStr "junk")]))
    [("offset", VInt 2); ("limit", VInt 3)] =
  request Sample.posts (Some (mk_request []))
    [("offset", VInt 2); ("limit", VInt 3)].
Proof.
  apply request_keywords_override_GET_paging.
  - intros k Ho Hl. simpl. by rewrite decide_False by congruence.
  - by_evaluation.
  - by_evaluation.
Defined.

(** ** [VerifyUniqueMixin.x_verify_unique], other outcomes *)
Section x_verify_unique_more.
Context `{!Builtins}.

(** An exception of [query()] that is neither an [ObjectDoesNotExist]
    nor a [MultipleObjectsReturned] reaches the caller as it is. *)
Theorem x_verify_unique_propagates (self : value) (query : callable) (e : exn) :
  arity query = 0%nat →
  body query [] = Raise e →
  isinstance e ObjectDoesNotExist = false →
  isinstance e MultipleObjectsReturned = false →
  x_verify_unique self (Some query) = Raise e.
Proof.
  intros Harity Hq Hmiss Hmult.
  rewrite (x_verify_unique_cases _ _ Harity), Hq. by rewrite Hmiss, Hmult.
Qed.

(** A [query] with a parameter that has no default cannot be called
    with no argument: the method raises [TypeError], which neither
    handler catches, and the body of [query] does not run.  A query
    whose parameters all have defaults, or that takes [*args], is
    called. *)
Theorem x_verify_unique_query_with_parameters (self : value) (query : callable) :
  arity query ≠ 0%nat →
  ∃ e, x_verify_unique self (Some query) = Raise e ∧ exn_cls e = TypeError ∧
       ∀ other_body,
         x_verify_unique self
           (Some (mk_callable (arity query) (optional query) other_body)) =
         Raise e.
Proof.
  intros Harity.
  assert (Hcall : ∀ b, py_call (mk_callable (arity query) (optional query) b) [] =
                       raise TypeError "wrong number of arguments").
  { intros b. unfold py_call, accepts. simpl.
    by rewrite bool_decide_eq_false_2 by lia. }
  eexists. split_and!.
  - unfold x_verify_unique. simpl. destruct query as [n k b]. simpl in *.
    rewrite Hcall. reflexivity.
  - reflexivity.
  - intros other_body. unfold x_verify_unique. simpl. rewrite Hcall. reflexivity.
Qed.

(** When [query()] returns something other than [None] that has no
    [pk], or [self] has none, the comparison fails with
    [AttributeError]: there is neither an [IntegrityError] nor a normal
    return. *)
Theorem x_verify_unique_without_pk (self other : value) (query : callable) :
  arity query = 0%nat →
  body query [] = Ret other → other ≠ VNone →
  (¬ returns_normally (getattr self "pk") ∨
   ¬ returns_normally (getattr other "pk")) →
  raises (x_verify_unique self (Some query)) AttributeError.
Proof.
  intros Harity Hq Hother Hpk.
  rewrite (x_verify_unique_cases _ _ Harity), Hq.
  assert (Hfail : raises (self_pk ← getattr self "pk";
                          other_pk ← getattr other "pk";
                          if py_ne self_pk other_pk
                          then raise_IntegrityError
                                 "Unique constraint violated " self
                          else Ret VNone) AttributeError).
  { destruct (getattr self "pk") as [p|e1] eqn:Hs; simpl.
    - destruct (getattr other "pk") as [p'|e2] eqn:Ho; simpl.
      + destruct Hpk as [Hn|Hn]; exfalso; apply Hn; by eexists.
      + exists e2. split; [reflexivity|].
        apply getattr_raises_AttributeError in Ho.
        unfold isinstance. by rewrite Ho.
    - exists e1. split; [reflexivity|].
      apply getattr_raises_AttributeError in Hs.
      unfold isinstance. by rewrite Hs. }
  destruct other; [done| | |]; exact Hfail.
Qed.

End x_verify_unique_more.

Lemma x_verify_unique_propagates_witness :
  x_verify_unique (Sample.post 3 103) (Some MoreSamples.bad_lookup) =
  raise FieldError "Cannot resolve keyword".
Proof.
  exact (x_verify_unique_propagates (Sample.post 3 103) MoreSamples.bad_lookup
           _ eq_refl eq_refl eq_refl eq_refl).
Defined.

Lemma x_verify_unique_query_with_parameters_witness :
  ∃ e, x_verify_unique (Sample.post 3 103) (Some MoreSamples.by_pk) = Raise e ∧
       exn_cls e = TypeError.
Proof.
  destruct (x_verify_unique_query_with_parameters (Sample.post 3 103)
              MoreSamples.by_pk ltac:(discriminate)) as (e & He & Hcls & _).
  exists e. split; [exact He | exact Hcls].
Defined.

(** A parameter with a default does not stand in the way of the call. *)
Example x_verify_unique_default_parameter :
  x_verify_unique (Sample.post 3 103) (Some MoreSamples.by_default_pk) = Ret VNone ∧
  raises (x_verify_unique (Sample.post 4 104) (Some MoreSamples.by_default_pk))
    IntegrityError.
Proof. split; [reflexivity | eexists; split; reflexivity]. Qed.

Lemma x_verify_unique_without_pk_witness :
  raises (x_verify_unique (Sample.post 3 103) (Some MoreSamples.count_posts))
    AttributeError.
Proof.
  apply (x_verify_unique_without_pk (Sample.post 3 103) (VInt 15)
           MoreSamples.count_posts eq_refl eq_refl ltac:(discriminate)).
  right. intros [p Hp]. discriminate Hp.
Defined.

(** ** [QuerySetMixin.get_or_none], what is and is not caught *)
Section get_or_none_more.
Context {QS : Type} `{!ORM QS}.

(** [get_or_none] never raises the [DoesNotExist] of its own model, and
    an exception it raises is one [get] raised. *)
Theorem get_or_none_exceptions (self : QS) (kwargs : list (string * value)) :
  ¬ raises (get_or_none self kwargs) (DoesNotExist (qs_model self)) ∧
  ∀ e, get_or_none self kwargs = Raise e → qs_get self kwargs = Raise e.
Proof.
  unfold get_or_none, try_except.
  destruct (qs_get self kwargs) as [found|e0]; simpl.
  - split; [apply raises_Ret | discriminate].
  - destruct (isinstance e0 (DoesNotExist (qs_model self))) eqn:Hinst.
    + split; [apply raises_Ret | discriminate].
    + split; [|done]. intros Hr. apply raises_Raise in Hr. congruence.
Qed.

(** Only the class of the queryset's own model is caught, not its
    base: when [get] raises an exception whose class is
    [ObjectDoesNotExist] itself, the exception reaches the caller. *)
Theorem get_or_none_ObjectDoesNotExist_propagates (self : QS)
    (kwargs : list (string * value)) (e : exn) :
  qs_get self kwargs = Raise e →
  exn_cls e = ObjectDoesNotExist →
  get_or_none self kwargs = Raise e.
Proof.
  intros Hget Hcls.
  assert (Hinst : isinstance e (DoesNotExist (qs_model self)) = false).
  { unfold isinstance, issubclass. rewrite Hcls. apply bool_decide_eq_false.
    simpl. intros Hin.
    repeat (apply elem_of_cons in Hin as [Hin|Hin]; [discriminate Hin|]).
    by apply elem_of_nil in Hin. }
  unfold get_or_none, try_except. rewrite Hget. simpl. by rewrite Hinst.
Qed.

End get_or_none_more.

Lemma get_or_none_ObjectDoesNotExist_propagates_witness :
  @get_or_none _ MoreSamples.generic_orm Sample.posts [("pk", VInt 3)] =
  raise ObjectDoesNotExist "no such object".
Proof.
  exact (@get_or_none_ObjectDoesNotExist_propagates _ MoreSamples.generic_orm
           Sample.posts [("pk", VInt 3)] _ eq_refl eq_refl).
Defined.

(** ** [MapFilterMixin.map_filter] and the bounds of [TimestampMixin] *)

Lemma string_app_cons (c : ascii) (a s : string) :
  String c a +:+ s = String c (a +:+ s).
Proof. reflexivity. Qed.

Lemma string_length_app (a s : string) :
  String.length (a +:+ s) = (String.length a + String.length s)%nat.
Proof.
  induction a as [|c a IH]; [reflexivity|].
  rewrite string_app_cons. simpl. by rewrite IH.
Qed.

(** Appending a suffix is injective. *)
Lemma string_app_suffix_inj (suffix a b : string) :
  a +:+ suffix = b +:+ suffix → a = b.
Proof.
  revert b. induction a as [|c a IH]; intros [|c' b] Heq.
  - reflexivity.
  - apply (f_equal String.length) in Heq.
    rewrite !string_length_app in Heq. simpl in Heq. lia.
  - apply (f_equal String.length) in Heq.
    rewrite !string_length_app in Heq. simpl in Heq. lia.
  - rewrite !string_app_cons in Heq. injection Heq as -> Heq.
    f_equal. by apply IH.
Qed.

Section map_filter_more.
Context {QS : Type} `{!Builtins} `{!ORM QS}.

Lemma map_filter_pairs_app (template : string) (cb : callback)
    (done rest : list (string * value)) (pairs : list (string * value)) :
  map_filter_pairs template cb done = Ret pairs →
  map_filter_pairs template cb (done ++ rest)%list =
  (more ← map_filter_pairs template cb rest; Ret (pairs ++ more)%list).
Proof.
  unfold map_filter_pairs. revert pairs.
  induction done as [|[k v] done IH]; intros pairs; simpl.
  - intros [= <-]. by destruct (mapM _ rest).
  - destruct (str_mod template k) as [k'|]; simpl; [|discriminate].
    destruct (call_callback cb v) as [v'|]; simpl; [|discriminate].
    destruct (mapM _ done) as [ps|] eqn:Hdone; simpl; [|discriminate].
    intros [= <-]. rewrite (IH ps eq_refl).
    by destruct (mapM _ rest).
Qed.

(** [map_filter] stops at the first keyword, in the order of the
    dictionary, whose key cannot be formatted or whose value the
    callback refuses: that exception is the result and [filter] is not
    called.  On one keyword the key is formatted before the callback
    runs. *)
Theorem map_filter_first_failure (self : QS) (template : string)
    (f : value → result value) (done rest pairs : list (string * value))
    (k : string) (v : value) (e : exn) :
  mapped_by template f done pairs →
  str_mod template k = Raise e ∨
    (returns_normally (str_mod template k) ∧ f v = Raise e) →
  map_filter self template (CbFun f) (done ++ (k, v) :: rest)%list = Raise e.
Proof.
  intros Hdone Hfail. apply map_filter_raises.
  apply map_filter_pairs_mapped in Hdone.
  rewrite (map_filter_pairs_app _ _ _ _ _ Hdone).
  unfold map_filter_pairs. simpl.
  destruct Hfail as [->|[[k' ->] Hv]]; simpl; [reflexivity|].
  by rewrite Hv.
Qed.

(** A call [self.map_filter(template, **kwargs)] on a host where
    [template % key] appends [suffix] to the key. *)
Lemma call_map_filter_suffix (self : QS) (template suffix : string)
    (kwargs : list (string * value)) :
  (∀ k, str_mod template k = Ret (k +:+ suffix)) →
  NoDup (dict_keys kwargs) →
  "self" ∉ dict_keys kwargs → "template" ∉ dict_keys kwargs →
  "callback" ∉ dict_keys kwargs →
  call_map_filter self template kwargs =
  qs_filter self ((λ kv, (kv.1 +:+ suffix, kv.2)) <$> kwargs).
Proof.
  intros Hfmt Hnd Hself Htemplate Hcallback.
  rewrite call_map_filter_plain by done. unfold map_filter, default_callback.
  assert (Hpairs : map_filter_pairs template (CbFun (λ x, Ret x)) kwargs =
                   Ret ((λ kv, (kv.1 +:+ suffix, kv.2)) <$> kwargs)).
  { apply map_filter_pairs_mapped. unfold mapped_by.
    apply Forall2_fmap_r, Forall_Forall2_diag, Forall_forall.
    intros [k v] _. simpl. by rewrite Hfmt. }
  rewrite Hpairs. simpl. f_equal. apply dict_of_pairs_NoDup.
  unfold dict_keys in *. rewrite <- list_fmap_compose.
  change (fst ∘ (λ kv : string * value, (kv.1 +:+ suffix, kv.2)))
    with ((λ k, k +:+ suffix) ∘ (fst : string * value → string)).
  rewrite list_fmap_compose.
  apply NoDup_fmap_2; [|exact Hnd].
  intros a b. apply string_app_suffix_inj.
Qed.

(** On a host where [%s] stands for the key, [before] and [ubefore]
    filter on every keyword with [__lt] appended to its name, [after]
    and [uafter] with [__gt] appended; the values and the order of the
    keywords are kept. *)
Theorem timestamp_bounds_are_lookups (self : QS)
    (kwargs : list (string * value)) :
  (∀ k, str_mod "%s__lt" k = Ret (k +:+ "__lt")) →
  (∀ k, str_mod "%s__gt" k = Ret (k +:+ "__gt")) →
  NoDup (dict_keys kwargs) →
  "self" ∉ dict_keys kwargs → "template" ∉ dict_keys kwargs →
  "callback" ∉ dict_keys kwargs →
  before self kwargs = qs_filter self ((λ kv, (kv.1 +:+ "__lt", kv.2)) <$> kwargs) ∧
  ubefore self kwargs = qs_filter self ((λ kv, (kv.1 +:+ "__lt", kv.2)) <$> kwargs) ∧
  after self kwargs = qs_filter self ((λ kv, (kv.1 +:+ "__gt", kv.2)) <$> kwargs) ∧
  uafter self kwargs = qs_filter self ((λ kv, (kv.1 +:+ "__gt", kv.2)) <$> kwargs).
Proof.
  intros Hlt Hgt Hnd Hself Htemplate Hcallback.
  unfold before, ubefore, after, uafter.
  split_and!; by apply call_map_filter_suffix.
Qed.

(** A keyword named [template] collides with the parameter that the
    four methods pass by position: each raises [TypeError], so a field
    of that name cannot be bounded. *)
Theorem timestamp_bounds_reject_template (self : QS)
    (kwargs : list (string * value)) :
  "template" ∈ dict_keys kwargs →
  raises (before self kwargs) TypeError ∧ raises (ubefore self kwargs) TypeError ∧
  raises (after self kwargs) TypeError ∧ raises (uafter self kwargs) TypeError.
Proof.
  intros Htemplate.
  unfold before, ubefore, after, uafter, call_map_filter.
  rewrite !bool_decide_eq_true_2 by (by right).
  split_and!; (eexists; split; reflexivity).
Qed.

(** A keyword named [callback] is bound to the parameter of that name
    instead of becoming a lookup.  Alone, it is dropped and the call
    filters on nothing; beside another keyword whose key the host
    formats, the value is called and the call raises [TypeError]. *)
Theorem timestamp_bounds_swallow_callback (self : QS) (v : value)
    (kwargs : list (string * value)) :
  dict_get kwargs "callback" = Some v →
  "self" ∉ dict_keys kwargs → "template" ∉ dict_keys kwargs →
  (dict_remove kwargs "callback" = [] → before self kwargs = qs_filter self []) ∧
  (∀ k w rest, dict_remove kwargs "callback" = (k, w) :: rest →
     returns_normally (str_mod "%s__lt" k) →
     raises (before self kwargs) TypeError).
Proof.
  intros Hcb Hself Htemplate. unfold before, call_map_filter.
  rewrite bool_decide_eq_false_2 by tauto. rewrite Hcb. split.
  - intros ->. reflexivity.
  - intros k w rest -> [k' Hk]. unfold map_filter, map_filter_pairs. simpl.
    rewrite Hk. simpl. eexists. split; reflexivity.
Qed.

End map_filter_more.

Lemma map_filter_first_failure_witness :
  raises (map_filter Sample.posts "%s__lt" (CbFun (λ v, VInt <$> py_int v))
            [("pk", VStr "4"); ("timestamp", VStr "soon"); ("n", VNone)])
    ValueError.
Proof.
  eexists. split.
  - apply (map_filter_first_failure Sample.posts "%s__lt"
             (λ v, VInt <$> py_int v)
             [("pk", VStr "4")] [("n", VNone)] [("pk__lt", VInt 4)]
             "timestamp" (VStr "soon")).
    + repeat constructor.
    + right. split; [by eexists | reflexivity].
  - reflexivity.
Defined.

Lemma timestamp_bounds_are_lookups_witness :
  before Sample.posts [("pk", VInt 4); ("timestamp", VInt 103)] =
  qs_filter Sample.posts [("pk__lt", VInt 4); ("timestamp__lt", VInt 103)].
Proof.
  apply (proj1 (@timestamp_bounds_are_lookups _ Mem.mem_builtins Mem.mem_orm
    Sample.posts [("pk", VInt 4); ("timestamp", VInt 103)]
    ltac:(intros k; reflexivity) ltac:(intros k; reflexivity)
    ltac:(by_evaluation) ltac:(by_evaluation) ltac:(by_evaluation)
    ltac:(by_evaluation))).
Defined.

Lemma timestamp_bounds_reject_template_witness :
  raises (before Sample.posts [("template", VStr "base.html")]) TypeError.
Proof.
  apply (proj1 (timestamp_bounds_reject_template Sample.posts
    [("template", VStr "base.html")] ltac:(by_evaluation))).
Defined.

Lemma timestamp_bounds_swallow_callback_witness :
  before Sample.posts [("callback", VStr "https://example.org/hook")] =
  qs_filter Sample.posts [].
Proof.
  apply (proj1 (timestamp_bounds_swallow_callback Sample.posts
    (VStr "https://example.org/hook")
    [("callback", VStr "https://example.org/hook")]
    eq_refl ltac:(by_evaluation) ltac:(by_evaluation))).
  reflexivity.
Defined.

(** ** [PaginatorMixin.paginate], consecutive pages *)

(** On list-backed querysets consecutive pages tile the queryset: the
    page of [n] rows at [offset] followed by the page of [m] rows at
    [offset + n] is the page of [n + m] rows at [offset]; no row is
    skipped and none repeated. *)
Theorem paginate_pages_tile (self : Mem.mem_qs) (offset n m : Z) :
  0 ≤ offset → 0 ≤ n → 0 ≤ m →
  ∃ first second both,
    paginate self (Some n) (Some offset) = Ret first ∧
    paginate self (Some m) (Some (offset + n)) = Ret second ∧
    paginate self (Some (n + m)) (Some offset) = Ret both ∧
    Mem.mq_rows both = (Mem.mq_rows first ++ Mem.mq_rows second)%list.
Proof.
  intros Ho Hn Hm. rewrite !paginate_delegates. simpl. unfold Mem.mem_getslice.
  rewrite !decide_False by lia.
  eexists _, _, _. split_and!; try reflexivity. simpl.
  replace (offset + n - offset) with n by lia.
  replace (offset + n + m - (offset + n)) with m by lia.
  replace (offset + (n + m) - offset) with (n + m) by lia.
  rewrite Z2Nat.inj_add by lia. rewrite <- take_take_drop. f_equal.
  rewrite drop_drop. by rewrite Z2Nat.inj_add by lia.
Qed.

Lemma paginate_pages_tile_witness :
  ∃ first second both,
    paginate Sample.posts (Some 4) (Some 2) = Ret first ∧
    paginate Sample.posts (Some 20) (Some (2 + 4)) = Ret second ∧
    paginate Sample.posts (Some (4 + 20)) (Some 2) = Ret both ∧
    Mem.mq_rows both = (Mem.mq_rows first ++ Mem.mq_rows second)%list.
Proof.
  apply (paginate_pages_tile Sample.posts 2 4 20); lia.
Defined.

(** ** [PolyModel.proxy], the rest of the heap *)
Section proxy_more.
Import PolyModel.


(** [proxy] gives up where its three steps do: an exception of the
    constructor is the result, and when the constructor returns, an
    object without [__dict__] on either side makes line 49 raise
    [AttributeError]. *)
Lemma proxy_failures (self : loc) (proxy_cls : class) (h : heap) :
  (∀ e, cls_call proxy_cls h = Raise e → proxy self proxy_cls h = Raise e) ∧
  (∀ p h1, cls_call proxy_cls h = Ret (p, h1) →
     ¬ returns_normally (get_dict self h1) ∨
       (∀ op, objects h1 !! p = Some op → obj_dict op = None) →
     raises (proxy self proxy_cls h) AttributeError).
Proof.
  unfold proxy. split.
  - by intros e ->.
  - intros p h1 -> Hno. simpl. unfold get_dict in *.
    destruct (objects h1 !! self) as [ob|] eqn:Hself;
      [destruct (obj_dict ob) as [d|] eqn:Hd|]; simpl;
      try (eexists; split; reflexivity).
    destruct Hno as [Hno|Hno]; [exfalso; apply Hno; by eexists|].
    unfold set_dict.
    destruct (objects h1 !! p) as [op|] eqn:Hp; simpl;
      [|eexists; split; reflexivity].
    rewrite (Hno op eq_refl). eexists. split; reflexivity.
Qed.

End proxy_more.


(** ** [ExternalManager.put], keys and errors *)
Section put_more.
Context {Obj : Type} `{!ModelHost Obj}.

Lemma id_suffix_differs (n : string) : n ≠ n +:+ "_id".
Proof.
  intros Heq. apply (f_equal String.length) in Heq.
  rewrite string_length_app in Heq. simpl in Heq. lia.
Qed.

(** One turn of the loop lets no [KeyError] out, wherever it came
    from. *)
Lemma put_foreign_key_no_KeyError (data : list (string * value)) (obj : Obj)
    (n : string) (e : exn) :
  put_foreign_key data obj n = Raise e → isinstance e KeyError = false.
Proof.
  assert (Hinner : ∀ (body : result Obj) e',
    try_except body [(KeyError, λ _, Ret obj)] (λ o, Ret o) = Raise e' →
    isinstance e' KeyError = false).
  { intros body e'. unfold try_except.
    destruct body as [o|e0]; [discriminate|]. simpl.
    destruct (isinstance e0 KeyError) eqn:Hk; [discriminate|]. by intros [= <-]. }
  unfold put_foreign_key. unfold try_except at 1.
  destruct (dict_getitem data n ≫= _) as [o|e0]; [discriminate|]. simpl.
  destruct (isinstance e0 KeyError) eqn:Hk.
  - apply Hinner.
  - by intros [= <-].
Qed.

Lemma for_each_no_KeyError (data : list (string * value))
    (names : list string) (obj : Obj) (e : exn) :
  for_each (put_foreign_key data) names obj = Raise e →
  isinstance e KeyError = false.
Proof.
  revert obj. induction names as [|n names IH]; intros obj; simpl; [discriminate|].
  destruct (put_foreign_key data obj n) as [obj'|e0] eqn:Hfk; simpl.
  - apply IH.
  - intros [= <-]. by eapply put_foreign_key_no_KeyError.
Qed.

(** The loop over the foreign keys swallows every [KeyError], also one
    raised by the host's [setattr]: when neither the constructor nor
    [save] raises one, [put] raises none. *)
Theorem put_hides_KeyError (data : list (string * value)) :
  (∀ kw e, model_new kw = Raise e → isinstance e KeyError = false) →
  (∀ o e, obj_save o = Raise e → isinstance e KeyError = false) →
  ¬ raises (put data) KeyError.
Proof.
  intros Hnew Hsave (e & Hput & Hinst). unfold put in Hput.
  destruct (model_new (put_fields data)) as [o0|e0] eqn:H0; simpl in Hput.
  - destruct (for_each _ _ o0) as [o1|e1] eqn:H1; simpl in Hput.
    + destruct (obj_save o1) as [o2|e2] eqn:H2; simpl in Hput; [discriminate|].
      injection Hput as <-. rewrite (Hsave _ _ H2) in Hinst. discriminate.
    + injection Hput as <-.
      rewrite (for_each_no_KeyError _ _ _ _ H1) in Hinst. discriminate.
  - injection Hput as <-. rewrite (Hnew _ _ H0) in Hinst. discriminate.
Qed.

(** When [data] holds the name of a foreign key, the key [name + '_id']
    is not read for it: taking it out of [data] changes nothing
    (provided it names no field itself, and [setattr] raises no
    [KeyError]). *)
Theorem put_name_before_id (data : list (string * value)) (n : string) :
  (∀ o a v e, obj_setattr o a v = Raise e → isinstance e KeyError = false) →
  n ∈ foreign_key_names → n ∈ dict_keys data →
  n +:+ "_id" ∉ plain_field_names → n +:+ "_id" ∉ foreign_key_names →
  put (dict_remove data (n +:+ "_id")) = put data.
Proof.
  intros Hset Hn Hdata Hplain Hfk. unfold put.
  rewrite put_fields_remove by done.
  destruct (model_new _) as [obj|]; simpl; [|reflexivity].
  rewrite (for_each_ext (put_foreign_key (dict_remove data (n +:+ "_id")))
             (put_foreign_key data)); [reflexivity|].
  intros o m Hm. destruct (decide (m = n)) as [->|Hne].
  - rewrite !put_foreign_key_as_specified by done.
    unfold set_foreign_key, foreign_key_source.
    rewrite dict_get_remove_ne by (intros Heq; by apply (id_suffix_differs n)).
    destruct (dict_get data n) eqn:Hget; [reflexivity|].
    by apply dict_get_None in Hget.
  - apply put_foreign_key_remove.
    + intros Heq. apply Hfk. by rewrite Heq.
    + intros Heq. apply Hne. symmetry. by eapply string_app_suffix_inj.
Qed.

(** When [data] names no foreign key, neither directly nor with [_id],
    no attribute is assigned: the instance goes from the constructor to
    [save] as it is, and every foreign key keeps what the constructor
    gave it. *)
Theorem put_without_foreign_keys (data : list (string * value)) :
  (∀ n, n ∈ foreign_key_names →
        (n ∉ dict_keys data) ∧ ((n +:+ "_id") ∉ dict_keys data)) →
  put data = (obj ← model_new (put_fields data); obj_save obj).
Proof.
  intros Habsent. unfold put.
  destruct (model_new (put_fields data)) as [obj|]; simpl; [|reflexivity].
  assert (Hloop : ∀ names o, (∀ n, n ∈ names → n ∈ foreign_key_names) →
            for_each (put_foreign_key data) names o = Ret o).
  { induction names as [|n names IH]; intros o Hsub; [reflexivity|]. simpl.
    destruct (Habsent n (Hsub n ltac:(left))) as [Hn Hid].
    apply dict_get_None in Hn. apply dict_get_None in Hid.
    assert (Hturn : put_foreign_key data o n = Ret o)
      by (unfold put_foreign_key, dict_getitem; by rewrite Hn, Hid).
    rewrite Hturn. simpl.
    apply IH. intros m Hm. apply Hsub. by right. }
  rewrite Hloop by done. simpl. by destruct (obj_save obj).
Qed.

End put_more.

Lemma put_hides_KeyError_witness :
  ¬ raises (@put _ (Mem.mem_model Sample.status_fields) Sample.status_data)
      KeyError.
Proof.
  apply (@put_hides_KeyError _ (Mem.mem_model Sample.status_fields)
           Sample.status_data); intros; discriminate.
Defined.

Lemma put_name_before_id_witness :
  @put _ (Mem.mem_model Sample.status_fields)
    (dict_remove (("place_id", VInt 9) :: Sample.status_data) ("place" +:+ "_id")) =
  @put _ (Mem.mem_model Sample.status_fields)
    (("place_id", VInt 9) :: Sample.status_data).
Proof.
  apply (@put_name_before_id _ (Mem.mem_model Sample.status_fields)
           (("place_id", VInt 9) :: Sample.status_data) "place").
  - intros; discriminate.
  - by_evaluation.
  - by_evaluation.
  - by_evaluation.
  - by_evaluation.
Defined.

Lemma put_without_foreign_keys_witness :
  @put _ (Mem.mem_model Sample.status_fields) [("text", VStr "hi")] =
  Ret (Mem.mk_obj [("text", VStr "hi")] true).
Proof.
  rewrite (@put_without_foreign_keys _ (Mem.mem_model Sample.status_fields)
             [("text", VStr "hi")]).
  - reflexivity.
  - intros n Hn. simpl in Hn.
    repeat (apply elem_of_cons in Hn as [->|Hn]; [split; by_evaluation|]).
    by apply elem_of_nil in Hn.
Defined.

(** ** [TimestampMixin._to_timestamp] *)
Section to_timestamp_facts.
Context {QS : Type} `{!ORM QS} `{!TimestampHost QS}.

(** With the parser the module defines, [_to_timestamp] returns a
    [datetime] as it is and raises [NameError] on everything else: the
    parser reads the global [datetime], which the module never binds,
    and [NameError] is not the [ValueError] the caller handles. *)
Theorem to_timestamp_default_parser (self : QS) (obj : value) :
  (is_datetime obj = true → _to_timestamp timestamp_parser self obj = Ret obj) ∧
  (is_datetime obj = false →
   _to_timestamp timestamp_parser self obj = raise NameError "datetime").
Proof.
  unfold _to_timestamp. split; intros ->; reflexivity.
Qed.

(** With a parser that refuses [obj] by [ValueError], [obj] is taken for
    a primary key: the result is the [timestamp] of the object the
    model's manager finds under it, and [obj] itself when the lookup
    raises the model's [DoesNotExist] or a [TypeError]. *)
Theorem to_timestamp_falls_back_to_pk (parser : value → result value)
    (self : QS) (obj : value) :
  is_datetime obj = false →
  raises (parser obj) ValueError →
  (∀ found t, qs_get (model_objects self) [("pk", obj)] = Ret found →
     getattr found "timestamp" = Ret t →
     _to_timestamp parser self obj = Ret t) ∧
  (∀ e, qs_get (model_objects self) [("pk", obj)] = Raise e →
     isinstance e (DoesNotExist (qs_model self)) = true ∨
       isinstance e TypeError = true →
     _to_timestamp parser self obj = Ret obj).
Proof.
  intros Hdt (e0 & Hparse & Hval). unfold _to_timestamp.
  rewrite Hdt, Hparse. unfold try_except at 1. simpl. rewrite Hval. simpl.
  split.
  - intros found t -> Ht. simpl. by rewrite Ht.
  - intros e -> Hcls. unfold try_except. simpl.
    destruct (isinstance e (DoesNotExist (qs_model self))); [reflexivity|].
    destruct Hcls as [Hc|Hc]; [discriminate|]. by rewrite Hc.
Qed.

(** An exception of the parser other than [ValueError] ends the call:
    the fallback on the primary key is not tried. *)
Theorem to_timestamp_parser_error (parser : value → result value)
    (self : QS) (obj : value) (e : exn) :
  is_datetime obj = false →
  parser obj = Raise e → isinstance e ValueError = false →
  _to_timestamp parser self obj = Raise e.
Proof.
  intros Hdt Hparse Hval. unfold _to_timestamp.
  rewrite Hdt, Hparse. unfold try_except. simpl. by rewrite Hval.
Qed.

End to_timestamp_facts.

Lemma to_timestamp_falls_back_to_pk_witness :
  @_to_timestamp _ Mem.mem_orm MoreSamples.mem_timestamps MoreSamples.no_parse
    Sample.posts (VInt 3) = Ret (VInt 103) ∧
  @_to_timestamp _ Mem.mem_orm MoreSamples.mem_timestamps MoreSamples.no_parse
    Sample.posts (VInt 99) = Ret (VInt 99).
Proof.
  split.
  - eapply (proj1 (@to_timestamp_falls_back_to_pk _ Mem.mem_orm
               MoreSamples.mem_timestamps MoreSamples.no_parse Sample.posts
               (VInt 3) eq_refl
               ltac:(eexists; split; reflexivity))); reflexivity.
  - eapply (proj2 (@to_timestamp_falls_back_to_pk _ Mem.mem_orm
               MoreSamples.mem_timestamps MoreSamples.no_parse Sample.posts
               (VInt 99) eq_refl
               ltac:(eexists; split; reflexivity))); [reflexivity|].
    left. reflexivity.
Defined.

Lemma to_timestamp_parser_error_witness :
  @_to_timestamp _ Mem.mem_orm MoreSamples.mem_timestamps
    (@timestamp_parser _ MoreSamples.mem_timestamps) Sample.posts (VStr "2012-01-01") =
  raise NameError "datetime".
Proof.
  exact (@to_timestamp_parser_error _ Mem.mem_orm MoreSamples.mem_timestamps
           (@timestamp_parser _ MoreSamples.mem_timestamps) Sample.posts
           (VStr "2012-01-01") _ eq_refl eq_refl eq_refl).
Defined.

(** ** [QuerySetManager.__getattr__] *)
Section QuerySetManager_facts.
Context {C QS : Type} `{!QuerySetManagerHost C QS}.

(** A name that starts with an underscore is never looked up on the
    queryset: the manager raises [AttributeError] whatever the host and
    the default given.  Every other name is looked up on a queryset of
    the model's own [QuerySet] class when the model has one, and of the
    module's class otherwise; with a default, an [AttributeError] of
    that lookup gives the default. *)
Theorem QuerySetManager_getattr_spec (attr : string) :
  (∀ rest args, attr = String "_" rest →
     QuerySetManager_getattr attr args = raise AttributeError "") ∧
  (String.prefix "_" attr = false →
     QuerySetManager_getattr attr [] =
       qs_getattr (new_query_set (default module_QuerySet model_QuerySet)) attr ∧
     ∀ d e, qs_getattr QuerySetManager_get_query_set attr = Raise e →
            isinstance e AttributeError = true →
            QuerySetManager_getattr attr [d] = Ret d).
Proof.
  unfold QuerySetManager_getattr. split.
  - intros rest args ->. simpl. by destruct rest.
  - intros ->. split; [reflexivity|]. intros d e He Hinst.
    unfold try_except. rewrite He. simpl. by rewrite Hinst.
Qed.

End QuerySetManager_facts.

(** On a model that brings its own queryset class: a method of that
    class is found through the manager, a private name is not. *)
Lemma QuerySetManager_getattr_spec_witness :
  @QuerySetManager_getattr _ _ MoreSamples.custom_manager "recent" [] =
    Ret (VStr "bound method") ∧
  @QuerySetManager_getattr _ _ MoreSamples.custom_manager "__class__" [] =
    raise AttributeError "".
Proof.
  split.
  - rewrite (proj1 (proj2 (@QuerySetManager_getattr_spec _ _
               MoreSamples.custom_manager "recent") eq_refl)).
    reflexivity.
  - exact (proj1 (@QuerySetManager_getattr_spec _ _
             MoreSamples.custom_manager "__class__") "_class__" [] eq_refl).
Defined.
